(** * Overkill: the orchestration core of the Explore / Engineer / Crystallize pipeline

    A shallow embedding of the parts of the repository that decide how the
    pipeline talks to the agent session, to the display and to the human:

    - [overkill/core/explorer.py]  : [RepoExplorer.explore], [_log_tool_use],
                                     [_log_tool_result]
    - [overkill/core/engineer.py]  : [VibeEngineer.__init__], [_get_user_input],
                                     [engineer]
    - [overkill/ui/textual_ui.py]  : [OverkillApp.prompt_user],
                                     [on_input_submitted], [TextualUI.shutdown]
    - [overkill/main.py]           : [clone_repo], [run_pipeline]

    A Python [str] is held as the [string] of its UTF-8 encoding, one
    [ascii] per byte; [len] and slices count characters (code points), as
    Python does, not bytes.  Calls on
    the display adapter, on the agent client and on [asyncio] are recorded, in
    program order, in a log of calls, so that "was this ever called" and "what
    was called next" are statements about a list. *)

From Stdlib Require Import String Ascii List Bool Arith Lia DecimalString.
From stdpp Require Import base list strings gmap.

Local Open Scope string_scope.

(** ** Python string operations used by the sources *)

Module Py.

(** [c.lower()] on the ASCII letters.  Every other character is kept:
    the strings that the sources compare a lowered text with are ASCII, and
    no character outside ASCII lowers to a text that they contain. *)
Definition lower_ascii (c : ascii) : ascii :=
  let n := nat_of_ascii c in
  if ((65 <=? n) && (n <=? 90))%nat then ascii_of_nat (n + 32)%nat else c.

(** [s.lower()] *)
Fixpoint lower (s : string) : string :=
  match s with
  | EmptyString => EmptyString
  | String c s' => String (lower_ascii c) (lower s')
  end.

(** [c.upper()] on the ASCII letters; every other character is kept. *)
Definition upper_ascii (c : ascii) : ascii :=
  let n := nat_of_ascii c in
  if ((97 <=? n) && (n <=? 122))%nat then ascii_of_nat (n - 32)%nat else c.

(** [s.upper()] *)
Fixpoint upper (s : string) : string :=
  match s with
  | EmptyString => EmptyString
  | String c s' => String (upper_ascii c) (upper s')
  end.

(** [sub in s] for two strings *)
Fixpoint contains (sub s : string) : bool :=
  String.prefix sub s ||
  match s with
  | EmptyString => false
  | String _ s' => contains sub s'
  end.

(** [x in [a, b, ...]] for a list of strings *)
Definition among (x : string) (l : list string) : bool :=
  bool_decide (x ∈ l).

(** [s.startswith((p1, p2, ...))] *)
Definition startswith_any (s : string) (ps : list string) : bool :=
  existsb (fun p => String.prefix p s) ps.

(** truth value of a string: [if s:] *)
Definition truthy (s : string) : bool :=
  match s with
  | EmptyString => false
  | String _ _ => true
  end.

(** A character (code point) starts at every byte of the encoding that is
    not a continuation byte [10xxxxxx]. *)
Definition continuation (c : ascii) : bool :=
  let n := nat_of_ascii c in
  ((128 <=? n) && (n <? 192))%nat.

(** [len(s)]: the number of characters of [s]. *)
Fixpoint len (s : string) : nat :=
  match s with
  | EmptyString => 0%nat
  | String c s' => ((if continuation c then 0 else 1) + len s')%nat
  end.

(** [s[:n]]: the first [n] characters of [s], that is the bytes before the
    byte that starts character [n]. *)
Fixpoint take (n : nat) (s : string) : string :=
  match s with
  | EmptyString => EmptyString
  | String c s' =>
      if continuation c then String c (take n s')
      else match n with
           | O => EmptyString
           | S n' => String c (take n' s')
           end
  end.

Definition newline : ascii := ascii_of_nat 10.
Definition space : ascii := ascii_of_nat 32.

(** [s.replace("\n", " ")] *)
Fixpoint replace_newlines (s : string) : string :=
  match s with
  | EmptyString => EmptyString
  | String c s' =>
      String (if Ascii.eqb c newline then space else c) (replace_newlines s')
  end.

(** [s.count("\n")] *)
Fixpoint count_newlines (s : string) : nat :=
  match s with
  | EmptyString => 0
  | String c s' => ((if Ascii.eqb c newline then 1 else 0) + count_newlines s')%nat
  end.

(** [str(n)] for a natural number: its decimal digits *)
Definition str_nat (n : nat) : string := NilZero.string_of_uint (Nat.to_uint n).

End Py.

(** ** Calls that leave the core

    The display adapter ([UIAdapter]), the agent client ([ClaudeSDKClient])
    and [asyncio.sleep] are the collaborators of the core.  A [Call] is one
    call on one of them; [ui_prompt_user] carries the line that came back. *)

Inductive Call : Type :=
| ui_update_phase (phase : string)
| ui_update_agent_status (agent_name status : string)
| ui_log_activity (message icon : string)
| ui_add_message (role content : string)
| ui_prompt_user (question answer : string)
| client_query (prompt : string)
| client_receive_response
| asyncio_sleep (seconds : nat).

(** The world outside the core: the calls made so far, oldest first, and how
    many lines the human has been asked for. *)
Record World : Type := {
  calls : list Call;
  asked : nat
}.

Definition world0 : World := {| calls := []; asked := 0 |}.

(** A computation that makes calls: state passing over [World]. *)
Definition M (A : Type) : Type := World -> A * World.

#[global] Instance M_ret : MRet M := fun A a w => (a, w).

#[global] Instance M_bind : MBind M :=
  fun A B k m w => let (a, w') := m w in k a w'.

(** Make one call that returns nothing the core looks at. *)
Definition call (c : Call) : M unit :=
  fun w => (tt, {| calls := (calls w ++ [c])%list; asked := asked w |}).

(** [await ui.prompt_user(question)]: the human's lines are an oracle
    [human], line [i] being the answer to the [i]-th prompt. *)
Definition prompt_user (human : nat -> string) (question : string) : M string :=
  fun w =>
    let answer := human (asked w) in
    (answer, {| calls := (calls w ++ [ui_prompt_user question answer])%list;
                asked := S (asked w) |}).

(** ** Events of an agent session ([claude_agent_sdk]) *)

Inductive Block : Type :=
| TextBlock (text : string)
| ToolUseBlock (name : string) (input : gmap string string)
| ToolResultBlock (content : option string)
| OtherBlock.

Inductive Message : Type :=
| AssistantMessage (content : list Block)
| ResultMessage
| OtherMessage.

(** The dictionary [RepoExplorer.explore] returns, with keys [summary] and
    [path]. *)
Record RepoAnalysis : Type := {
  summary : string;
  path : string
}.

Definition nl : string := String Py.newline "".

(** ** [overkill/core/explorer.py] *)

Module RepoExplorer.

(** [str(block.content) if block.content else ""].  A content that is
    [None] or empty is falsy; any other content is taken by its [str]. *)
Definition content_str (content : option string) : string :=
  match content with
  | Some s => if Py.truthy s then s else ""
  | None => ""
  end.

(** [_log_tool_result(self, block)], lines 95-108. *)
Definition _log_tool_result (block_content : option string) : M unit :=
  let content := content_str block_content in
  if (100 <? Py.len content)%nat then
    let lines := (Py.count_newlines content + 1)%nat in
    call (ui_log_activity ("Result: " ++ Py.str_nat lines ++ " lines") "📊")
  else if Py.truthy content then
    let preview := Py.replace_newlines (Py.take 50 content) in
    let preview :=
      if (50 <? Py.len content)%nat then preview ++ "..." else preview in
    call (ui_log_activity ("Result: " ++ preview) "📊")
  else mret tt.

(** [_log_tool_use(self, block)], lines 72-93; [tool_input.get(k, d)] is
    a lookup with a default. *)
Definition _log_tool_use (tool_name : string) (tool_input : gmap string string)
    : M unit :=
  if String.eqb tool_name "Read" then
    let file_path := default "unknown" (tool_input !! "file_path") in
    call (ui_log_activity ("Read(" ++ file_path ++ ")") "🔧")
  else if String.eqb tool_name "Grep" then
    let pattern := default "" (tool_input !! "pattern") in
    call (ui_log_activity ("Grep(" ++ pattern ++ ")") "🔧")
  else if String.eqb tool_name "Glob" then
    let pattern := default "" (tool_input !! "pattern") in
    call (ui_log_activity ("Glob(" ++ pattern ++ ")") "🔧")
  else if String.eqb tool_name "Bash" then
    let command := default "" (tool_input !! "command") in
    let command :=
      if (40 <? Py.len command)%nat
      then Py.take 37 command ++ "..." else command in
    call (ui_log_activity ("Bash(" ++ command ++ ")") "🔧")
  else
    call (ui_log_activity (tool_name ++ "(...)") "🔧").

(** Lines 59-65: the blocks of one [AssistantMessage]. *)
Fixpoint explore_blocks (result_text : string) (blocks : list Block) : M string :=
  match blocks with
  | [] => mret result_text
  | TextBlock text :: blocks' => explore_blocks (result_text ++ text) blocks'
  | ToolUseBlock name input :: blocks' =>
      _log_tool_use name input;;
      explore_blocks result_text blocks'
  | ToolResultBlock content :: blocks' =>
      _log_tool_result content;;
      explore_blocks result_text blocks'
  | OtherBlock :: blocks' => explore_blocks result_text blocks'
  end.

(** Lines 57-65: the messages of the turn (the loop does not stop at a
    [ResultMessage]; the client does). *)
Fixpoint explore_messages (result_text : string) (messages : list Message)
    : M string :=
  match messages with
  | [] => mret result_text
  | AssistantMessage blocks :: messages' =>
      result_text ← explore_blocks result_text blocks;
      explore_messages result_text messages'
  | _ :: messages' => explore_messages result_text messages'
  end.

Definition analysis_prompt : string :=
  "Analyze this repository and provide:" ++ nl ++ nl
  ++ "1. **Stack**: What technologies, frameworks, languages are used?" ++ nl
  ++ "2. **Structure**: How is the code organized? What are the main directories?" ++ nl
  ++ "3. **Patterns**: What patterns do you see? (architecture, naming, styling)" ++ nl
  ++ "4. **Conventions**: Code style, file organization conventions" ++ nl
  ++ "5. **Integration points**: Where would new features typically be added?" ++ nl ++ nl
  ++ "Be concise but thorough. Focus on actionable insights.".

(** [explore], lines 27-70, for a repository at [repo_path] and an agent
    whose turn yields [messages]. *)
Definition explore (repo_path : string) (messages : list Message)
    : M RepoAnalysis :=
  call (ui_update_phase "explore");;
  call (ui_update_agent_status "RepoExplorer" "Initializing...");;
  call (ui_update_agent_status "RepoExplorer" "Analyzing repository...");;
  call (ui_log_activity "Starting repository analysis" "🔍");;
  call (client_query analysis_prompt);;
  call client_receive_response;;
  result_text ← explore_messages "" messages;
  call (ui_update_agent_status "RepoExplorer" "Analysis complete");;
  call (ui_log_activity "Repository analysis complete" "✅");;
  mret {| summary := result_text; path := repo_path |}.

End RepoExplorer.

(** ** [overkill/core/engineer.py] *)

Module VibeEngineer.

(** One entry of [conversation_history]: [{"role": ..., "content": ...}] *)
Record Turn : Type := {
  role : string;
  content : string
}.

(** The dictionary [engineer] returns. *)
Record EngineeringSession : Type := {
  conversation : list Turn;
  session_repo_analysis : RepoAnalysis;
  session_feature_request : string
}.

(** The attributes of a [VibeEngineer]; [ui] is the [World]. *)
Record t : Type := {
  repo_analysis : RepoAnalysis;
  feature_request : string;
  decisions : list string;
  demo_mode : bool;
  demo_responses : list string;
  demo_response_index : nat
}.

(** [__init__], lines 21-36 *)
Definition __init__ (repo_analysis : RepoAnalysis) (feature_request : string)
    (demo_mode : bool) : t :=
  {| repo_analysis := repo_analysis;
     feature_request := feature_request;
     decisions := [];
     demo_mode := demo_mode;
     demo_responses :=
       [ "I want to create a marketing landing page for Quivr, separate from the docs. Something modern that showcases what it does.";
         "The main message should be: turn any codebase into an intelligent Q&A system. Fast setup, no infrastructure needed.";
         "I want it clean and minimal - think Vercel or Linear style. Fast, with maybe one subtle animation on the hero.";
         "Main CTA should be 'Get Started' linking to docs, secondary CTA 'View on GitHub'. Target audience is Python devs doing RAG.";
         "done" ];
     demo_response_index := 0 |}.

(** [self.demo_response_index += 1] *)
Definition advance (self : t) : t :=
  {| repo_analysis := repo_analysis self;
     feature_request := feature_request self;
     decisions := decisions self;
     demo_mode := demo_mode self;
     demo_responses := demo_responses self;
     demo_response_index := S (demo_response_index self) |}.

(** The loop of [engineer] leaves an iteration by [continue] (or by
    reaching its end) or by [break]. *)
Inductive Ctl : Type := Continue | Break.

(** The text of one agent turn, lines 72-78: the [TextBlock]s of the
    [AssistantMessage]s, in order, up to the first [ResultMessage]. *)
Fixpoint text_of_blocks (acc : string) (blocks : list Block) : string :=
  match blocks with
  | [] => acc
  | TextBlock text :: blocks' => text_of_blocks (acc ++ text) blocks'
  | _ :: blocks' => text_of_blocks acc blocks'
  end.

Fixpoint text_of_response (acc : string) (messages : list Message) : string :=
  match messages with
  | [] => acc
  | AssistantMessage blocks :: messages' =>
      text_of_response (text_of_blocks acc blocks) messages'
  | ResultMessage :: _ => acc
  | OtherMessage :: messages' => text_of_response acc messages'
  end.

(** Line 90-93: the agent says that it is ready. *)
Definition says_ready (assistant_response : string) : bool :=
  Py.contains "SPEC_READY" assistant_response ||
  Py.contains "ready to generate" (Py.lower assistant_response).

Definition affirmative : list string := ["yes"; "y"; "done"].
Definition ending : list string := ["done"; "exit"; "quit"; "finish"].

Section WithHuman.

(** The lines the human types, in the order they are asked for. *)
Variable human : nat -> string.

(** [_get_user_input], lines 127-138.  The list lookup succeeds exactly
    when [demo_response_index < len(demo_responses)]. *)
Definition _get_user_input (self : t) (prompt : string) : M (string * t) :=
  if demo_mode self then
    match demo_responses self !! demo_response_index self with
    | Some response =>
        let self := advance self in
        call (asyncio_sleep 1);;
        mret (response, self)
    | None => mret ("done", self)
    end
  else
    answer ← prompt_user human prompt;
    mret (answer, self).

(** [n] requests for input in a row: the answers, oldest first. *)
Fixpoint ask (n : nat) (self : t) : M (list string * t) :=
  match n with
  | 0 => mret ([], self)
  | S n' =>
      '(response, self) ← _get_user_input self "";
      '(responses, self) ← ask n' self;
      mret (response :: responses, self)
  end.

(** Lines 90-98: the confirmation asked for when the agent says that it
    is ready.  The result is [true] when the loop is left by [break]. *)
Definition confirm_ready (self : t) (assistant_response : string)
    : M (bool * t) :=
  if says_ready assistant_response then
    call (ui_add_message "agent" "Ready to generate SPEC.md? (yes/no)");;
    '(confirm, self) ← _get_user_input self "";
    call (ui_add_message "user" confirm);;
    mret (Py.among (Py.lower confirm) affirmative, self)
  else mret (false, self).

(** Lines 100-114: one request for the human's message and what is done
    with it. *)
Definition human_turn (self : t) (conversation_history : list Turn)
    : M (Ctl * t * list Turn) :=
  '(user_input, self) ← _get_user_input self "";
  if negb (Py.truthy user_input) then
    mret (Continue, self, conversation_history)
  else if Py.among (Py.lower user_input) ending then
    mret (Break, self, conversation_history)
  else
    call (ui_add_message "user" user_input);;
    let conversation_history :=
      (conversation_history
         ++ [{| role := "user"; content := user_input |}])%list in
    call (ui_update_agent_status "VibeEngineer" "Thinking...");;
    call (client_query user_input);;
    mret (Continue, self, conversation_history).

(** Lines 80-116: the body of the loop once the agent's turn has been
    read into [assistant_response]. *)
Definition after_response (assistant_response : string) (self : t)
    (conversation_history : list Turn) : M (Ctl * t * list Turn) :=
  call (ui_log_activity
          ("Response length: " ++ Py.str_nat (Py.len assistant_response))
          "📝");;
  if Py.truthy assistant_response then
    call (ui_add_message "agent" assistant_response);;
    let conversation_history :=
      (conversation_history
         ++ [{| role := "assistant"; content := assistant_response |}])%list in
    '(stop, self) ← confirm_ready self assistant_response;
    if stop : bool then mret (Break, self, conversation_history)
    else human_turn self conversation_history
  else mret (Break, self, conversation_history).

(** Lines 67-116, [while True].  [agent] holds, for each call of
    [client.receive_response()] still to come, the messages it yields;
    when nothing is left the call yields no message at all. *)
Fixpoint loop (agent : list (list Message)) (self : t)
    (conversation_history : list Turn) : M (t * list Turn) :=
  call (ui_log_activity "Waiting for Claude response..." "⏳");;
  call client_receive_response;;
  match agent with
  | [] =>
      '(_, self, conversation_history) ←
        after_response (text_of_response "" []) self conversation_history;
      mret (self, conversation_history)
  | messages :: agent' =>
      '(ctl, self, conversation_history) ←
        after_response (text_of_response "" messages) self conversation_history;
      match ctl with
      | Break => mret (self, conversation_history)
      | Continue => loop agent' self conversation_history
      end
  end.

(** [engineer], lines 38-125 *)
Definition engineer (agent : list (list Message)) (self : t)
    : M (EngineeringSession * t) :=
  call (ui_update_phase "engineer");;
  call (ui_update_agent_status "VibeEngineer" "Starting session...");;
  call (ui_log_activity "Vibe engineering session started" "🎯");;
  call (ui_log_activity
          ("Feature: " ++ Py.take 50 (feature_request self) ++ "...") "📋");;
  let conversation_history := [] in
  let initial :=
    "Repository Analysis:" ++ nl ++ summary (repo_analysis self) ++ nl ++ nl
    ++ "Feature Request: " ++ feature_request self ++ nl ++ nl
    ++ "Start the vibe engineering conversation. Ask your first question to understand what the user really wants." in
  call (client_query initial);;
  call (ui_update_agent_status "VibeEngineer" "Thinking...");;
  '(self, conversation_history) ← loop agent self conversation_history;
  call (ui_update_agent_status "VibeEngineer" "Session complete");;
  call (ui_log_activity "Engineering session complete" "✅");;
  mret ({| conversation := conversation_history;
           session_repo_analysis := repo_analysis self;
           session_feature_request := feature_request self |}, self).

End WithHuman.

End VibeEngineer.

(** ** [overkill/core/crystallizer.py]

    The icons are the characters that the source file holds. *)

Module Crystallizer.

(** [_format_conversation], lines 84-91 *)
Definition _format_conversation (session : VibeEngineer.EngineeringSession)
    : string :=
  let formatted :=
    map (fun turn =>
           let role := Py.upper (VibeEngineer.role turn) in
           let content := VibeEngineer.content turn in
           role ++ ": " ++ content)
        (VibeEngineer.conversation session) in
  String.concat (nl ++ nl) formatted.

(** [_log_tool_use], lines 93-102 *)
Definition _log_tool_use (tool_name : string) (tool_input : gmap string string)
    : M unit :=
  if String.eqb tool_name "Write" then
    let file_path := default "unknown" (tool_input !! "file_path") in
    call (ui_log_activity ("Write(" ++ file_path ++ ")") "ðŸ”§")
  else
    call (ui_log_activity (tool_name ++ "(...)") "ðŸ”§").

(** [_log_tool_result], lines 104-106 *)
Definition _log_tool_result (block_content : option string) : M unit :=
  call (ui_log_activity "File written successfully" "ðŸ“Š").

(** Lines 38-59 *)
Definition crystallize_prompt (session : VibeEngineer.EngineeringSession)
    (output_path : string) : string :=
  "Based on this vibe engineering session, generate a SPEC.md file."
  ++ nl ++ nl ++ "Repository Analysis:" ++ nl
  ++ summary (VibeEngineer.session_repo_analysis session) ++ nl ++ nl
  ++ "Original Feature Request:" ++ nl
  ++ VibeEngineer.session_feature_request session ++ nl ++ nl
  ++ "Conversation and Decisions:" ++ nl ++ _format_conversation session
  ++ nl ++ nl ++ "Create a SPEC.md file at " ++ output_path
  ++ " that includes:" ++ nl ++ nl
  ++ "1. **Feature Summary** - What we're building and why" ++ nl
  ++ "2. **Technical Decisions** - All decisions made during the conversation"
  ++ nl
  ++ "3. **Files to Create/Modify** - Exact file paths and what changes"
  ++ nl ++ "4. **Implementation Steps** - Clear, ordered steps" ++ nl
  ++ "5. **Constraints** - What NOT to do, patterns to follow" ++ nl
  ++ "6. **Acceptance Criteria** - How to verify it's done" ++ nl ++ nl
  ++ "Make it so clear that ANY developer (or Claude Code) can execute it without asking questions."
  ++ nl
  ++ "Use the exact file paths and patterns from the repo analysis.".

(** Lines 71-77: the blocks of one [AssistantMessage]. *)
Fixpoint crystallize_blocks (result_text : string) (blocks : list Block)
    : M string :=
  match blocks with
  | [] => mret result_text
  | TextBlock text :: blocks' =>
      crystallize_blocks (result_text ++ text) blocks'
  | ToolUseBlock name input :: blocks' =>
      _log_tool_use name input;;
      crystallize_blocks result_text blocks'
  | ToolResultBlock content :: blocks' =>
      _log_tool_result content;;
      crystallize_blocks result_text blocks'
  | OtherBlock :: blocks' => crystallize_blocks result_text blocks'
  end.

(** Lines 69-77 *)
Fixpoint crystallize_messages (result_text : string) (messages : list Message)
    : M string :=
  match messages with
  | [] => mret result_text
  | AssistantMessage blocks :: messages' =>
      result_text ← crystallize_blocks result_text blocks;
      crystallize_messages result_text messages'
  | _ :: messages' => crystallize_messages result_text messages'
  end.

(** [crystallize], lines 26-82, for [str(output_path)] and an agent whose
    turn yields [messages]. *)
Definition crystallize (session : VibeEngineer.EngineeringSession)
    (output_path : string) (messages : list Message) : M string :=
  call (ui_update_phase "crystallize");;
  call (ui_update_agent_status "Crystallizer" "Starting...");;
  call (ui_log_activity "Generating SPEC.md..." "ðŸ“");;
  call (ui_update_agent_status "Crystallizer" "Generating spec...");;
  call (client_query (crystallize_prompt session output_path));;
  call client_receive_response;;
  _ ← crystallize_messages "" messages;
  call (ui_update_agent_status "Crystallizer" "Complete");;
  call (ui_log_activity ("SPEC.md written to " ++ output_path) "âœ…");;
  mret output_path.

End Crystallizer.

(** ** [overkill/ui/textual_ui.py] *)

Module OverkillApp.

(** The attributes of an [OverkillApp] that [prompt_user] and
    [on_input_submitted] read and write.  An [asyncio.Event] is an object:
    [events] holds the flag of every event created so far and
    [_input_event] refers to one of them by its position, or is [None]. *)
Record t : Type := {
  _input_event : option nat;
  _input_value : string;
  _last_streaming_text : string;
  _message_counter : nat;
  events : list bool;
  mounted : bool;
  input_focused : bool
}.

(** [__init__], lines 196-202; the widgets are not mounted yet. *)
Definition __init__ : t :=
  {| _input_event := None;
     _input_value := "";
     _last_streaming_text := "";
     _message_counter := 0;
     events := [];
     mounted := false;
     input_focused := false |}.

(** [prompt_user], lines 303-311, up to [await self._input_event.wait()]:
    the event that the caller then waits on, and the app. *)
Definition prompt_user_begin (_question : string) (self : t) : nat * t :=
  let event := length (events self) in
  (event,
   {| _input_event := Some event;
      _input_value := "";
      _last_streaming_text := "";
      _message_counter := _message_counter self;
      events := events self ++ [false];
      mounted := mounted self;
      input_focused := if mounted self then true else input_focused self |}).

(** [on_input_submitted], lines 231-236, for [event.value = value] *)
Definition on_input_submitted (value : string) (self : t) : t :=
  match _input_event self with
  | Some event =>
      {| _input_event := _input_event self;
         _input_value := value;
         _last_streaming_text := _last_streaming_text self;
         _message_counter := _message_counter self;
         events := <[event := true]> (events self);
         mounted := mounted self;
         input_focused := input_focused self |}
  | None => self
  end.

(** [prompt_user], lines 315-316, once the event waited on is set *)
Definition prompt_user_end (self : t) : string * t :=
  (_input_value self,
   {| _input_event := None;
      _input_value := _input_value self;
      _last_streaming_text := _last_streaming_text self;
      _message_counter := _message_counter self;
      events := events self;
      mounted := mounted self;
      input_focused := input_focused self |}).

(** A [prompt_user] call is outstanding: the slot refers to an event that
    has not been set. *)
Definition outstanding (self : t) : Prop :=
  exists event, _input_event self = Some event /\ events self !! event = Some false.

(** The caller that waits on [event] can go on. *)
Definition woken (event : nat) (self : t) : bool :=
  bool_decide (events self !! event = Some true).

End OverkillApp.

Module TextualUI.

Section Shutdown.

(** [textual.app.App] is not part of the repository: the state of the
    app, its [is_running] property and its [exit()] are taken as given. *)
Context {App : Type}.
Variable is_running : App -> bool.
Variable exit : App -> App.

(** [shutdown], lines 361-364 *)
Definition shutdown (app : App) : App :=
  if is_running app then exit app else app.

End Shutdown.

End TextualUI.

(** ** [overkill/ui/textual_ui.py]: the widgets *)

Module Display.

(** [AddMessageRequest], lines 19-26 *)
Record AddMessageRequest : Type := {
  role : string;
  content : string;
  streaming : bool
}.

(** A [rich.text.Text]: its segments, each a text and its style. *)
Definition Text : Type := list (string * string).

(** An [OverkillApp] with its widgets: the phase indicator, the agent
    status, the two logs, and the messages posted to the app and not yet
    handled.  [has_screen] says that the app runs: it has a screen, on
    which its widgets are composed next. *)
Record t : Type := {
  app : OverkillApp.t;
  has_screen : bool;
  current_phase : string;
  agent_name : string;
  status : string;
  activity_log : list string;
  messages_log : list Text;
  posted : list AddMessageRequest
}.

(** The app as built, lines 38, 63-64 and 196-202: it does not run yet and
    has no screen. *)
Definition init : t :=
  {| app := OverkillApp.__init__;
     has_screen := false;
     current_phase := "explore";
     agent_name := "Idle";
     status := "Ready";
     activity_log := [];
     messages_log := [];
     posted := [] |}.

Definition set_app (a : OverkillApp.t) (self : t) : t :=
  {| app := a;
     has_screen := has_screen self;
     current_phase := current_phase self;
     agent_name := agent_name self;
     status := status self;
     activity_log := activity_log self;
     messages_log := messages_log self;
     posted := posted self |}.

(** The app starts to run: it has a screen from now on. *)
Definition start (self : t) : t :=
  {| app := app self;
     has_screen := true;
     current_phase := current_phase self;
     agent_name := agent_name self;
     status := status self;
     activity_log := activity_log self;
     messages_log := messages_log self;
     posted := posted self |}.

(** The widgets are composed on the screen: [query_one] finds them from
    now on. *)
Definition mount (self : t) : t :=
  set_app
    {| OverkillApp._input_event := OverkillApp._input_event (app self);
       OverkillApp._input_value := OverkillApp._input_value (app self);
       OverkillApp._last_streaming_text :=
         OverkillApp._last_streaming_text (app self);
       OverkillApp._message_counter := OverkillApp._message_counter (app self);
       OverkillApp.events := OverkillApp.events (app self);
       OverkillApp.mounted := true;
       OverkillApp.input_focused := OverkillApp.input_focused (app self) |}
    (start self).

(** What [self.query_one(...)] does for a widget of the app.  [textual] is
    not part of the repository: [query_one] returns a widget that is
    composed and raises [NoMatches] for one that is not; on an app that
    has no screen it raises [ScreenStackError], which is not a
    [NoMatches]. *)
Inductive Query : Type :=
| Found
| NoMatches
| ScreenStackError.

Definition query_one (self : t) : Query :=
  if OverkillApp.mounted (app self) then Found
  else if has_screen self then NoMatches
  else ScreenStackError.

(** How a call on the app ends: it returns (for [prompt_user]: it goes on
    to wait), or the exception that [query_one] raised leaves it. *)
Inductive Exit : Type :=
| Returns
| Raises.

(** [update_phase], lines 238-244 *)
Definition update_phase (phase : string) (self : t) : Exit * t :=
  match query_one self with
  | Found =>
      (Returns,
       {| app := app self;
          has_screen := has_screen self;
          current_phase := phase;
          agent_name := agent_name self;
          status := status self;
          activity_log := activity_log self;
          messages_log := messages_log self;
          posted := posted self |})
  | NoMatches => (Returns, self)
  | ScreenStackError => (Raises, self)
  end.

(** [update_agent_status], lines 246-253 *)
Definition update_agent_status (name status' : string) (self : t) : Exit * t :=
  match query_one self with
  | Found =>
      (Returns,
       {| app := app self;
          has_screen := has_screen self;
          current_phase := current_phase self;
          agent_name := name;
          status := status';
          activity_log := activity_log self;
          messages_log := messages_log self;
          posted := posted self |})
  | NoMatches => (Returns, self)
  | ScreenStackError => (Raises, self)
  end.

(** [log_activity], lines 255-261 *)
Definition log_activity (message icon : string) (self : t) : Exit * t :=
  match query_one self with
  | Found =>
      (Returns,
       {| app := app self;
          has_screen := has_screen self;
          current_phase := current_phase self;
          agent_name := agent_name self;
          status := status self;
          activity_log := activity_log self ++ [(icon ++ " " ++ message)%string];
          messages_log := messages_log self;
          posted := posted self |})
  | NoMatches => (Returns, self)
  | ScreenStackError => (Raises, self)
  end.

(** [add_message], lines 263-267: the request is posted to the app. *)
Definition add_message (role content : string) (streaming : bool) (self : t) : t :=
  {| app := app self;
     has_screen := has_screen self;
     current_phase := current_phase self;
     agent_name := agent_name self;
     status := status self;
     activity_log := activity_log self;
     messages_log := messages_log self;
     posted :=
       posted self
         ++ [{| role := role; content := content; streaming := streaming |}] |}.

(** Lines 280-287: the line written for a message. *)
Definition formatted (message : AddMessageRequest) : Text :=
  if String.eqb (role message) "agent"
  then [("Agent: ", "bold magenta"); (content message, "")]
  else [("You: ", "bold cyan"); (content message, "")].

(** [prompt_user], lines 303-313, up to [await self._input_event.wait()]:
    the slot is assigned before the input widget is looked up. *)
Definition prompt_user (question : string) (self : t) : Exit * t :=
  (match query_one self with
   | Found | NoMatches => Returns
   | ScreenStackError => Raises
   end,
   set_app (snd (OverkillApp.prompt_user_begin question (app self))) self).

Section WithNoMatches.

(** [str(e)] for the [NoMatches] that [query_one] raises. *)
Variable no_matches : string.

(** [handle_add_message], lines 269-293 *)
Definition handle_add_message (message : AddMessageRequest) (self : t)
    : Exit * t :=
  match query_one self with
  | Found =>
      if streaming message && String.eqb (role message) "agent"
         && Py.truthy (OverkillApp._last_streaming_text (app self))
      then
        (Returns,
         set_app
           {| OverkillApp._input_event := OverkillApp._input_event (app self);
              OverkillApp._input_value := OverkillApp._input_value (app self);
              OverkillApp._last_streaming_text :=
                (OverkillApp._last_streaming_text (app self)
                 ++ content message)%string;
              OverkillApp._message_counter :=
                OverkillApp._message_counter (app self);
              OverkillApp.events := OverkillApp.events (app self);
              OverkillApp.mounted := OverkillApp.mounted (app self);
              OverkillApp.input_focused := OverkillApp.input_focused (app self) |}
           self)
      else
        (Returns,
         {| app :=
              {| OverkillApp._input_event := OverkillApp._input_event (app self);
                 OverkillApp._input_value := OverkillApp._input_value (app self);
                 OverkillApp._last_streaming_text :=
                   OverkillApp._last_streaming_text (app self);
                 OverkillApp._message_counter :=
                   S (OverkillApp._message_counter (app self));
                 OverkillApp.events := OverkillApp.events (app self);
                 OverkillApp.mounted := OverkillApp.mounted (app self);
                 OverkillApp.input_focused :=
                   OverkillApp.input_focused (app self) |};
            has_screen := has_screen self;
            current_phase := current_phase self;
            agent_name := agent_name self;
            status := status self;
            activity_log := activity_log self;
            messages_log := messages_log self ++ [formatted message];
            posted := posted self |})
  | NoMatches => log_activity ("UI Error: " ++ no_matches)%string "⚠️" self
  | ScreenStackError => (Raises, self)
  end.

(** The app handles the oldest message posted to it. *)
Definition deliver (self : t) : Exit * t :=
  match posted self with
  | [] => (Returns, self)
  | message :: rest =>
      handle_add_message message
        {| app := app self;
           has_screen := has_screen self;
           current_phase := current_phase self;
           agent_name := agent_name self;
           status := status self;
           activity_log := activity_log self;
           messages_log := messages_log self;
           posted := rest |}
  end.

(** What can happen to the app, one thing at a time. *)
Inductive Op : Type :=
| op_start
| op_mount
| op_update_phase (phase : string)
| op_update_agent_status (name status' : string)
| op_log_activity (message icon : string)
| op_add_message (role content : string) (streaming : bool)
| op_deliver
| op_prompt_user (question : string)
| op_input_submitted (value : string)
| op_prompt_user_returns.

(** How [op] ends and the app after it. *)
Definition perform (op : Op) (self : t) : Exit * t :=
  match op with
  | op_start => (Returns, start self)
  | op_mount => (Returns, mount self)
  | op_update_phase phase => update_phase phase self
  | op_update_agent_status name status' => update_agent_status name status' self
  | op_log_activity message icon => log_activity message icon self
  | op_add_message role content streaming =>
      (Returns, add_message role content streaming self)
  | op_deliver => deliver self
  | op_prompt_user question => prompt_user question self
  | op_input_submitted value =>
      (Returns, set_app (OverkillApp.on_input_submitted value (app self)) self)
  | op_prompt_user_returns =>
      (Returns, set_app (snd (OverkillApp.prompt_user_end (app self))) self)
  end.

(** The app after [op], however [op] ends. *)
Definition step (op : Op) (self : t) : t := snd (perform op self).

(** The app after [ops], oldest first. *)
Definition run (ops : list Op) (self : t) : t :=
  fold_left (fun d op => step op d) ops self.

End WithNoMatches.

End Display.

(** ** [overkill/ui/textual_ui.py]: [PhaseIndicator] *)

Module PhaseIndicator.

Definition phases : list string := ["explore"; "engineer"; "crystallize"].

(** [PHASE_LABELS], lines 28-32 *)
Definition PHASE_LABELS : gmap string string :=
  {[ "explore" := "🔍 EXPLORE";
     "engineer" := "🤖 ENGINEER";
     "crystallize" := "📝 CRYSTALLIZE" ]}.

(** [phases.index(x)]: the position of [x], or [None] where Python raises
    [ValueError]. *)
Fixpoint index (x : string) (l : list string) : option nat :=
  match l with
  | [] => None
  | y :: l' => if String.eqb y x then Some 0 else S <$> index x l'
  end.

(** Lines 45-55: the segments for the phases [rest], the [i]-th and later
    ones of the three; [None] where Python raises ([KeyError] for a label,
    [ValueError] for [phases.index]). *)
Fixpoint render_from (current_phase : string) (i : nat) (rest : list string)
    : option Display.Text :=
  match rest with
  | [] => Some []
  | phase :: rest' =>
      label ← PHASE_LABELS !! phase;
      segment ←
        (if String.eqb phase current_phase then
           Some ((" " ++ label ++ " ")%string, "bold reverse green")
         else
           here ← index phase phases;
           current ← index current_phase phases;
           if (here <? current)%nat
           then Some ((" ✓ " ++ label ++ " ")%string, "dim green")
           else Some ((" " ++ label ++ " ")%string, "dim"));
      later ← render_from current_phase (S i) rest';
      Some (segment
            :: (if (i <? length phases - 1)%nat then [(" → ", "dim")] else [])
            ++ later)
  end.

(** [render], lines 40-57 *)
Definition render (current_phase : string) : option Display.Text :=
  render_from current_phase 0 phases.

End PhaseIndicator.

(** ** [overkill/main.py] *)

Module Main.

(** A path is the list of its components; the file system is the set of
    the paths that exist. *)
Definition Path : Type := list string.

Inductive Exn : Type :=
| CalledProcessError (stderr : string)
| RuntimeError (message : string)
| OtherException (message : string)
| BaseException (message : string).

(** [isinstance(e, Exception)]: everything but a bare [BaseException]
    such as a cancellation or a keyboard interrupt. *)
Definition is_Exception (e : Exn) : bool :=
  match e with
  | BaseException _ => false
  | _ => true
  end.

(** [str(e)] *)
Definition str_exn (e : Exn) : string :=
  match e with
  | CalledProcessError m | RuntimeError m | OtherException m | BaseException m => m
  end.

(** How a block of statements ends. *)
Inductive Result (A : Type) : Type :=
| Ok (a : A)
| Return
| Raise (e : Exn).
Arguments Ok {A} a.
Arguments Return {A}.
Arguments Raise {A} e.

(** What lies outside [run_pipeline]: the file system and the display. *)
Record Outside : Type := {
  fs : gset Path;
  ui : list Call
}.

(** The state of a run of [run_pipeline]: the outside and its two local
    variables ([repo_path] is unbound until it is assigned). *)
Record State : Type := {
  outside : Outside;
  cleanup : bool;
  repo_path : option Path
}.

(** A call on a collaborator returns a value or raises; it sees and
    changes the outside only. *)
Definition Ext (A : Type) : Type := Outside -> (A + Exn) * Outside.

Definition P (A : Type) : Type := State -> Result A * State.

#[global] Instance P_ret : MRet P := fun A a st => (Ok a, st).

#[global] Instance P_bind : MBind P :=
  fun A B k m st =>
    match m st with
    | (Ok a, st') => k a st'
    | (Return, st') => (Return, st')
    | (Raise e, st') => (Raise e, st')
    end.

Definition set_outside (o : Outside) (st : State) : State :=
  {| outside := o; cleanup := cleanup st; repo_path := repo_path st |}.

Definition await {A} (f : Ext A) : P A :=
  fun st =>
    match f (outside st) with
    | (inl a, o) => (Ok a, set_outside o st)
    | (inr e, o) => (Raise e, set_outside o st)
    end.

(** [ui.log_activity(message, icon=icon)] *)
Definition log (message icon : string) (o : Outside) : Outside :=
  {| fs := fs o; ui := ui o ++ [ui_log_activity message icon] |}.

Definition log_activity (message icon : string) : P unit :=
  fun st => (Ok tt, set_outside (log message icon (outside st)) st).

Definition set_cleanup (b : bool) : P unit :=
  fun st =>
    (Ok tt, {| outside := outside st; cleanup := b; repo_path := repo_path st |}).

Definition set_repo_path (p : Path) : P unit :=
  fun st =>
    (Ok tt, {| outside := outside st; cleanup := cleanup st; repo_path := Some p |}).

(** [path.exists()] *)
Definition path_exists (p : Path) : P bool :=
  fun st => (Ok (bool_decide (p ∈ fs (outside st))), st).

Definition return_ {A} : P A := fun st => (Return, st).

(** [str(path)] *)
Definition str_path (p : Path) : string := String.concat "/" p.

(** [shutil.rmtree(p, ignore_errors=True)]: [p] and everything below it
    is gone. *)
Definition rmtree (p : Path) (o : Outside) : Outside :=
  {| fs := filter (fun q => ~ p `prefix_of` q) (fs o); ui := ui o |}.

Record Args : Type := {
  repo : string;
  feature : string;
  output : string;
  demo : bool
}.

Section WithCollaborators.

(** The values the phases hand on. *)
Variables Analysis Session : Type.

(** [tempfile.mkdtemp(prefix="overkill_")]: the directory it makes. *)
Variable mkdtemp : gset Path -> Path.
(** [subprocess.run(["git", "clone", url, dir], check=True, ...)] *)
Variable git_clone : string -> Path -> Ext unit.
(** [Path(s).resolve()] *)
Variable resolve : string -> Path.
(** [RepoExplorer(repo_path, ui).explore()],
    [VibeEngineer(analysis, feature, ui, demo).engineer()] and
    [Crystallizer(session, ui).crystallize(output_path)] *)
Variable explore : Path -> Ext Analysis.
Variable engineer : Analysis -> string -> bool -> Ext Session.
Variable crystallize : Session -> Path -> Ext string.

(** [clone_repo], lines 24-37 *)
Definition clone_repo (repo_url : string) : Ext Path :=
  fun o =>
    let temp_dir := mkdtemp (fs o) in
    let o := {| fs := {[temp_dir]} ∪ fs o; ui := ui o |} in
    match git_clone repo_url temp_dir o with
    | (inl _, o') => (inl temp_dir, o')
    | (inr (CalledProcessError stderr), o') =>
        (inr (RuntimeError ("Error cloning repo: " ++ stderr)), o')
    | (inr e, o') => (inr e, o')
    end.

(** The [try] block of [run_pipeline], lines 64-90 *)
Definition pipeline_body (args : Args) : P unit :=
  repo_path ←
    (if Py.startswith_any (repo args) ["http://"; "https://"; "git@"] then
       log_activity ("Cloning " ++ repo args ++ "...") "📥";;
       repo_path ← await (clone_repo (repo args));
       set_repo_path repo_path;;
       set_cleanup true;;
       log_activity ("Cloned to " ++ str_path repo_path) "✅";;
       mret repo_path
     else
       let repo_path := resolve (repo args) in
       set_repo_path repo_path;;
       found ← path_exists repo_path;
       if found : bool then mret repo_path
       else
         log_activity ("Error: Path does not exist: " ++ str_path repo_path) "❌";;
         return_);
  analysis ← await (explore repo_path);
  session ← await (engineer analysis (feature args) (demo args));
  let output_path := resolve (output args) in
  spec_path ← await (crystallize session output_path);
  log_activity ("SPEC.md generated at: " ++ spec_path) "🎉";;
  log_activity "Complete! Press Ctrl+C to exit." "✅".

(** The [finally] block, lines 95-97 *)
Definition pipeline_finally (st : State) : State :=
  match cleanup st, repo_path st with
  | true, Some p =>
      let o := log ("Cleaning up " ++ str_path p ++ "...") "🧹" (outside st) in
      set_outside (rmtree p o) st
  | _, _ => st
  end.

(** [run_pipeline], lines 58-97.  The result is the exception that leaves
    the function, if one does ([except Exception] lets a bare
    [BaseException] through, after the [finally] block has run), and the
    outside as the function leaves it. *)
Definition run_pipeline (args : Args) (o : Outside) : option Exn * Outside :=
  let st := {| outside := o; cleanup := false; repo_path := None |} in
  let (r, st) := pipeline_body args st in
  let (leaving, st) :=
    match r with
    | Raise e =>
        if is_Exception e
        then (None, snd (log_activity ("Error: " ++ str_exn e) "❌" st))
        else (Some e, st)
    | _ => (None, st)
    end in
  (leaving, outside (pipeline_finally st)).

End WithCollaborators.

End Main.

(** ** [overkill/main.py], lines 76-87, with the three agents

    [run_pipeline] with the collaborators that [main.py] builds: a
    [RepoExplorer], a [VibeEngineer] and a [Crystallizer] that share the
    display, for agent sessions that deliver their messages and leave the
    file system alone. *)

Module Overkill.

Section WithSessions.

(** The lines of the human, and the messages of the three agent sessions. *)
Variable human : nat -> string.
Variable exploring : list Message.
Variable engineering : list (list Message).
Variable crystallizing : list Message.

Variable mkdtemp : gset Main.Path -> Main.Path.
Variable git_clone : string -> Main.Path -> Main.Ext unit.
Variable resolve : string -> Main.Path.

(** A computation on the display, as a collaborator of [run_pipeline]; the
    human has been asked as many lines as the display was prompted for. *)
Definition on_display {A} (m : M A) : Main.Ext A :=
  fun o =>
    let (a, w) :=
      m {| calls := Main.ui o;
           asked :=
             length (List.filter
                       (fun c => match c with
                                 | ui_prompt_user _ _ => true
                                 | _ => false
                                 end)
                       (Main.ui o)) |} in
    (inl a, {| Main.fs := Main.fs o; Main.ui := calls w |}).

(** Lines 77-78 *)
Definition explore (repo_path : Main.Path) : Main.Ext RepoAnalysis :=
  on_display (RepoExplorer.explore (Main.str_path repo_path) exploring).

(** Lines 81-82 *)
Definition engineer (analysis : RepoAnalysis) (feature : string) (demo : bool)
    : Main.Ext VibeEngineer.EngineeringSession :=
  on_display
    (fun w =>
       let (result, w') :=
         VibeEngineer.engineer human engineering
           (VibeEngineer.__init__ analysis feature demo) w in
       (fst result, w')).

(** Lines 85-87 *)
Definition crystallize (session : VibeEngineer.EngineeringSession)
    (output_path : Main.Path) : Main.Ext string :=
  on_display
    (Crystallizer.crystallize session (Main.str_path output_path) crystallizing).

Definition run_pipeline (args : Main.Args) (o : Main.Outside)
    : option Main.Exn * Main.Outside :=
  Main.run_pipeline RepoAnalysis VibeEngineer.EngineeringSession
    mkdtemp git_clone resolve explore engineer crystallize args o.

End WithSessions.

End Overkill.

(** ** Vocabulary of the properties *)

(** The world after some more calls that ask the human nothing. *)
Definition extend (w : World) (cs : list Call) : World :=
  {| calls := (calls w ++ cs)%list; asked := asked w |}.

(** The world in which the body of the loop runs: the wait was logged and
    the agent's turn was read. *)
Definition received (w : World) : World :=
  extend w [ui_log_activity "Waiting for Claude response..." "⏳";
            client_receive_response].

(** A call on the agent client. *)
Definition is_agent_call (c : Call) : bool :=
  match c with
  | client_query _ | client_receive_response => true
  | _ => false
  end.

(** The two kinds of transcript entries. *)
Definition assistant_turn (r : string) : VibeEngineer.Turn :=
  {| VibeEngineer.role := "assistant"; VibeEngineer.content := r |}.
Definition user_turn (u : string) : VibeEngineer.Turn :=
  {| VibeEngineer.role := "user"; VibeEngineer.content := u |}.

(** What the loop may append to the transcript. *)
Definition valid_entry (e : VibeEngineer.Turn) : Prop :=
  (VibeEngineer.role e = "assistant" /\ VibeEngineer.content e <> "")
  \/ (VibeEngineer.role e = "user" /\ VibeEngineer.content e <> ""
      /\ Py.lower (VibeEngineer.content e) ∉ VibeEngineer.ending).

(** The engineer of a demo run and of an interactive run, on a two-line
    analysis. *)
Definition sample_analysis : RepoAnalysis :=
  {| summary := "Stack: Python"; path := "/srv/repo" |}.

Definition demo_engineer : VibeEngineer.t :=
  VibeEngineer.__init__ sample_analysis "add a health check endpoint" true.

Definition live_engineer : VibeEngineer.t :=
  VibeEngineer.__init__ sample_analysis "add a health check endpoint" false.

Definition silent : nat -> string := fun _ => "".

(** A human who declines the confirmation and then gives more detail. *)
Definition declines : nat -> string :=
  fun i => match i with 0 => "no" | _ => "more detail" end.

(** A human who types an ending token in capitals. *)
Definition quits : nat -> string := fun _ => "QUIT".

(** An agent that asks one question and is then never sent anything. *)
Definition one_question : list (list Message) :=
  [[AssistantMessage [TextBlock "What do "; TextBlock "you want?"];
    ResultMessage]].

(** A second [prompt_user] is refused: it leaves the events and the slot of
    the app as they were. *)
Definition second_prompt_refused (question : string) (app : OverkillApp.t) : Prop :=
  let app' := snd (OverkillApp.prompt_user_begin question app) in
  OverkillApp.events app' = OverkillApp.events app
  /\ OverkillApp._input_event app' = OverkillApp._input_event app.

(** An app on which one [prompt_user] is waiting. *)
Definition waiting_app : OverkillApp.t :=
  snd (OverkillApp.prompt_user_begin "" OverkillApp.__init__).

(** An example of the collaborators of [run_pipeline]: the clone succeeds
    and writes one file, and the exploration fails. *)
Definition sample_tmp : Main.Path := ["tmp"; "overkill_k3"].

Definition sample_git_clone (url : string) (dir : Main.Path) : Main.Ext unit :=
  fun o =>
    (inl tt, {| Main.fs := {[(dir ++ ["README.md"])%list]} ∪ Main.fs o;
                Main.ui := Main.ui o |}).

Definition sample_explore (p : Main.Path) : Main.Ext unit :=
  fun o => (inr (Main.OtherException "session failed"), o).

Definition sample_args : Main.Args :=
  {| Main.repo := "https://github.com/user/repo";
     Main.feature := "add a health check endpoint";
     Main.output := "SPEC.md";
     Main.demo := false |}.

Definition sample_outside : Main.Outside :=
  {| Main.fs := {[ ["home"; "me"] ]}; Main.ui := [] |}.

Definition sample_run : option Main.Exn * Main.Outside :=
  Main.run_pipeline unit unit (fun _ => sample_tmp) sample_git_clone
    (fun s => [s]) sample_explore
    (fun _ _ _ o => (inl tt, o)) (fun _ _ o => (inl "SPEC.md", o))
    sample_args sample_outside.

(** The messages sent to the agent by some calls, oldest first. *)
Definition queries (cs : list Call) : list string :=
  omap (fun c => match c with client_query p => Some p | _ => None end) cs.

(** How many agent turns some calls read. *)
Definition receives (cs : list Call) : nat :=
  length (List.filter
            (fun c => match c with client_receive_response => true | _ => false end)
            cs).

(** How many lines some calls asked the human for. *)
Definition prompts (cs : list Call) : nat :=
  length (List.filter
            (fun c => match c with ui_prompt_user _ _ => true | _ => false end)
            cs).

(** The human's messages in a transcript, oldest first. *)
Definition user_messages (h : list VibeEngineer.Turn) : list string :=
  omap (fun e =>
          if String.eqb (VibeEngineer.role e) "user"
          then Some (VibeEngineer.content e) else None) h.

(** A transcript made of agent responses, each followed by at most one
    message of the human. *)
Fixpoint paired (h : list VibeEngineer.Turn) : bool :=
  match h with
  | [] => true
  | a :: rest =>
      String.eqb (VibeEngineer.role a) "assistant"
      && match rest with
         | [] => true
         | u :: rest' =>
             if String.eqb (VibeEngineer.role u) "user"
             then paired rest' else paired rest
         end
  end.

(** What one iteration of the loop appends for the agent response [r], and
    how it ends. *)
Inductive iteration (r : string) : VibeEngineer.Ctl -> list VibeEngineer.Turn -> Prop :=
| iteration_silent :
    r = "" -> iteration r VibeEngineer.Break []
| iteration_break :
    r <> "" -> iteration r VibeEngineer.Break [assistant_turn r]
| iteration_skip :
    r <> "" -> iteration r VibeEngineer.Continue [assistant_turn r]
| iteration_answer (u : string) :
    r <> "" -> u <> "" -> Py.lower u ∉ VibeEngineer.ending ->
    iteration r VibeEngineer.Continue [assistant_turn r; user_turn u].

(** An agent turn that carries no text. *)
Definition no_text : list Message :=
  [AssistantMessage [ToolUseBlock "Read" ∅; OtherBlock]; ResultMessage].

(** The first message [engineer] sends, lines 57-64. *)
Definition initial_prompt (self : VibeEngineer.t) : string :=
  ("Repository Analysis:" ++ nl ++ summary (VibeEngineer.repo_analysis self)
   ++ nl ++ nl
   ++ "Feature Request: " ++ VibeEngineer.feature_request self ++ nl ++ nl
   ++ "Start the vibe engineering conversation. Ask your first question to understand what the user really wants.")%string.

(** The calls of [engineer] before and after its loop. *)
Definition engineer_prelude (self : VibeEngineer.t) : list Call :=
  [ui_update_phase "engineer";
   ui_update_agent_status "VibeEngineer" "Starting session...";
   ui_log_activity "Vibe engineering session started" "🎯";
   ui_log_activity
     ("Feature: " ++ Py.take 50 (VibeEngineer.feature_request self) ++ "...")%string
     "📋";
   client_query (initial_prompt self);
   ui_update_agent_status "VibeEngineer" "Thinking..."].

Definition engineer_postlude : list Call :=
  [ui_update_agent_status "VibeEngineer" "Session complete";
   ui_log_activity "Engineering session complete" "✅"].

(** [self'] is [self] with the cursor of the canned responses moved on,
    if at all. *)
Definition moved_on (self self' : VibeEngineer.t) : Prop :=
  VibeEngineer.repo_analysis self' = VibeEngineer.repo_analysis self
  /\ VibeEngineer.feature_request self' = VibeEngineer.feature_request self
  /\ VibeEngineer.decisions self' = VibeEngineer.decisions self
  /\ VibeEngineer.demo_mode self' = VibeEngineer.demo_mode self
  /\ VibeEngineer.demo_responses self' = VibeEngineer.demo_responses self
  /\ VibeEngineer.demo_response_index self
       <= VibeEngineer.demo_response_index self'
  /\ (VibeEngineer.demo_mode self = false -> self' = self).

(** The canned responses of [__init__]. *)
Definition canned : list string := VibeEngineer.demo_responses demo_engineer.

(** The text that a block and a message carry. *)
Definition block_text (b : Block) : string :=
  match b with
  | TextBlock text => text
  | _ => ""
  end.

Definition message_blocks (m : Message) : list Block :=
  match m with
  | AssistantMessage blocks => blocks
  | _ => []
  end.

Definition message_text (m : Message) : string :=
  String.concat "" (map block_text (message_blocks m)).

(** The messages that come before the first [ResultMessage]. *)
Fixpoint before_result (messages : list Message) : list Message :=
  match messages with
  | [] => []
  | ResultMessage :: _ => []
  | m :: messages' => m :: before_result messages'
  end.

(** The activity lines that [RepoExplorer] and [Crystallizer] write for a
    block. *)
Definition explore_activity (b : Block) : list Call :=
  match b with
  | ToolUseBlock name input =>
      calls (snd (RepoExplorer._log_tool_use name input world0))
  | ToolResultBlock content =>
      calls (snd (RepoExplorer._log_tool_result content world0))
  | _ => []
  end.

Definition crystallize_activity (b : Block) : list Call :=
  match b with
  | ToolUseBlock name input =>
      calls (snd (Crystallizer._log_tool_use name input world0))
  | ToolResultBlock content =>
      calls (snd (Crystallizer._log_tool_result content world0))
  | _ => []
  end.

(** The calls of [explore] before and after it reads the agent's turn. *)
Definition explore_prelude : list Call :=
  [ui_update_phase "explore";
   ui_update_agent_status "RepoExplorer" "Initializing...";
   ui_update_agent_status "RepoExplorer" "Analyzing repository...";
   ui_log_activity "Starting repository analysis" "🔍";
   client_query RepoExplorer.analysis_prompt;
   client_receive_response].

Definition explore_postlude : list Call :=
  [ui_update_agent_status "RepoExplorer" "Analysis complete";
   ui_log_activity "Repository analysis complete" "✅"].

(** A call that writes a line to the activity log. *)
Definition is_activity (c : Call) : bool :=
  match c with
  | ui_log_activity _ _ => true
  | _ => false
  end.

(** How many tool results the messages hold. *)
Definition tool_results (messages : list Message) : nat :=
  length (List.filter
            (fun b => match b with ToolResultBlock _ => true | _ => false end)
            (flat_map message_blocks messages)).

(** How many of the calls write a line with the icon [icon] to the
    activity log. *)
Definition activity_with_icon (icon : string) (cs : list Call) : nat :=
  length (List.filter
            (fun c => match c with
                      | ui_log_activity _ icon' => String.eqb icon' icon
                      | _ => false
                      end) cs).

(** The block that [_format_conversation] writes for a turn. *)
Definition turn_block (turn : VibeEngineer.Turn) : string :=
  (Py.upper (VibeEngineer.role turn) ++ ": " ++ VibeEngineer.content turn)%string.

(** A session: the dictionary that [engineer] returns. *)
Definition session_of (analysis : RepoAnalysis) (feature : string)
    (h : list VibeEngineer.Turn) : VibeEngineer.EngineeringSession :=
  {| VibeEngineer.conversation := h;
     VibeEngineer.session_repo_analysis := analysis;
     VibeEngineer.session_feature_request := feature |}.

(** The icons of the crystallizer's line for a tool result and of its
    completion line. *)
Definition written_icon : string := "ðŸ“Š".
Definition completed_icon : string := "âœ…".

(** The calls of [crystallize] before it reads the agent's turn. *)
Definition crystallize_prelude (session : VibeEngineer.EngineeringSession)
    (output_path : string) : list Call :=
  [ui_update_phase "crystallize";
   ui_update_agent_status "Crystallizer" "Starting...";
   ui_log_activity "Generating SPEC.md..." "ðŸ“";
   ui_update_agent_status "Crystallizer" "Generating spec...";
   client_query (Crystallizer.crystallize_prompt session output_path);
   client_receive_response].

(** A conversation of one question and one answer. *)
Definition sample_conversation : list VibeEngineer.Turn :=
  [assistant_turn "What do you want?"; user_turn "A landing page"].

(** The invariant of the display: no streamed text is held back, and the
    message counter counts the lines of the conversation log. *)
Definition display_consistent (d : Display.t) : Prop :=
  OverkillApp._last_streaming_text (Display.app d) = ""
  /\ OverkillApp._message_counter (Display.app d)
     = length (Display.messages_log d).

(** A mounted display with two messages posted, the second one marked as
    streaming. *)
Definition sample_display : Display.t :=
  Display.add_message "agent" "Which stack?" true
    (Display.add_message "user" "A landing page" false
       (Display.mount Display.init)).

(** The styles of the phase segments of a rendered indicator, the arrows
    between them left out. *)
Definition phase_styles (text : Display.Text) : list string :=
  snd <$> List.filter (fun segment => negb (String.eqb (fst segment) " → ")) text.

(** An example of collaborators of [run_pipeline] on a local repository:
    the phases succeed and leave the file system alone. *)
Definition local_args : Main.Args :=
  {| Main.repo := "repo";
     Main.feature := "add a health check endpoint";
     Main.output := "SPEC.md";
     Main.demo := true |}.

Definition quiet_explore (p : Main.Path) : Main.Ext unit :=
  fun o => (inl tt, o).

Definition quiet_engineer (analysis : unit) (feature : string) (demo : bool)
    : Main.Ext unit :=
  fun o => (inl tt, o).

Definition quiet_crystallize (session : unit) (p : Main.Path) : Main.Ext string :=
  fun o => (inl (Main.str_path p), o).

(** A file system that holds the local repository, and one that does not. *)
Definition with_repo : Main.Outside :=
  {| Main.fs := {[ ["repo"] ]}; Main.ui := [] |}.

Definition without_repo : Main.Outside :=
  {| Main.fs := ∅; Main.ui := [] |}.


(** A clone that fails and leaves the directory it was given. *)
Definition failing_git_clone (url : string) (dir : Main.Path) : Main.Ext unit :=
  fun o => (inr (Main.CalledProcessError "fatal: repository not found"), o).

(** The activity lines that stand for a block of the agent's turn during
    the exploration: none for a text block or a block of another kind; one
    line with the name of the tool, and what it is used on in brackets,
    for a tool use; one line for a tool result that holds something, and
    none for one that holds nothing. *)
Inductive block_lines : Block -> list Call -> Prop :=
| lines_text (text : string) :
    block_lines (TextBlock text) []
| lines_tool_use (name : string) (input : gmap string string) (arg : string) :
    block_lines (ToolUseBlock name input)
      [ui_log_activity (name ++ "(" ++ arg ++ ")")%string "🔧"]
| lines_tool_result (body text : string) :
    body <> "" ->
    block_lines (ToolResultBlock (Some body))
      [ui_log_activity ("Result: " ++ text)%string "📊"]
| lines_empty_result (content : option string) :
    content = None \/ content = Some "" ->
    block_lines (ToolResultBlock content) []
| lines_other :
    block_lines OtherBlock [].

(** A tool result of three lines and more than 100 characters. *)
Definition long_body : string :=
  ("File created successfully at: /srv/repo/SPEC.md" ++ nl
   ++ "Sections: Overview, Requirements, Design, Testing" ++ nl
   ++ "Wrote 214 lines, 9120 characters")%string.

(** A human who answers [quit] to the first request and gives more detail
    to the next. *)
Definition quits_then_answers : nat -> string :=
  fun i => match i with 0 => "quit" | _ => "more detail" end.

(** The phases that some calls set on the display, oldest first. *)
Definition phase_updates (cs : list Call) : list string :=
  omap (fun c => match c with ui_update_phase p => Some p | _ => None end) cs.

(** * Properties *)

(** ** Strings *)

Section StringFacts.

Lemma len_append (s1 s2 : string) :
  Py.len (s1 ++ s2) = Py.len s1 + Py.len s2.
Proof.
  induction s1 as [|c s1 IH]; simpl; [reflexivity |].
  rewrite IH. lia.
Qed.

Lemma len_replace_newlines (s : string) :
  Py.len (Py.replace_newlines s) = Py.len s.
Proof.
  induction s as [|c s IH]; cbn [Py.replace_newlines Py.len]; [reflexivity |].
  rewrite IH. destruct (Ascii.eqb c Py.newline) eqn:Hc; [| reflexivity].
  apply Ascii.eqb_eq in Hc. now subst c.
Qed.

Lemma len_take (n : nat) (s : string) :
  Py.len (Py.take n s) = n `min` Py.len s.
Proof.
  revert n. induction s as [|c s IH]; intros n; cbn [Py.take Py.len].
  - now rewrite Nat.min_0_r.
  - destruct (Py.continuation c) eqn:Hc.
    + cbn [Py.len]. rewrite Hc, IH. reflexivity.
    + destruct n as [|n]; [reflexivity |].
      cbn [Py.len]. rewrite Hc, IH. lia.
Qed.

Lemma take_all (n : nat) (s : string) :
  Py.len s <= n -> Py.take n s = s.
Proof.
  revert n. induction s as [|c s IH]; intros n Hlen; [reflexivity |].
  cbn [Py.take Py.len] in *. destruct (Py.continuation c).
  - now rewrite IH by lia.
  - destruct n as [|n]; [lia |]. now rewrite IH by lia.
Qed.

(** A slice [s[:n]] is the start of [s]. *)
Lemma take_prefix (n : nat) (s : string) :
  exists rest, s = Py.take n s ++ rest.
Proof.
  revert n. induction s as [|c s IH]; intros n; [now exists "" |].
  cbn [Py.take]. destruct (Py.continuation c).
  - destruct (IH n) as [rest Hrest]. exists rest.
    change (String c s = String c (Py.take n s ++ rest)). now f_equal.
  - destruct n as [|n]; [now exists (String c s) |].
    destruct (IH n) as [rest Hrest]. exists rest.
    change (String c s = String c (Py.take n s ++ rest)). now f_equal.
Qed.

Lemma truthy_nonempty (s : string) : Py.truthy s = true <-> s <> "".
Proof. destruct s; simpl; split; intros; congruence. Qed.

Lemma among_spec (x : string) (l : list string) :
  Py.among x l = true <-> x ∈ l.
Proof. unfold Py.among. apply bool_decide_eq_true. Qed.

End StringFacts.

(** ** [RepoExplorer._log_tool_result] *)

(** C5.  The line that the exploration writes for a tool result with the
    body [body], characters counted as Python counts them: a body of more
    than 100 characters is reported by its number of lines and no raw
    text; a non-empty body of at most 100 characters is shown by a preview
    within the cap of 100 characters, which is the body with its newlines
    as spaces when it has at most 50 characters and otherwise its first 50
    characters followed by an ellipsis; an empty or missing body writes
    nothing.  The crystallization writes the same fixed line for every
    tool result, whatever its body. *)
Theorem C5_tool_result_preview (body : string) (w : World) :
  let w' := snd (RepoExplorer._log_tool_result (Some body) w) in
  (100 < Py.len body ->
     w' = extend w
            [ui_log_activity
               ("Result: " ++ Py.str_nat (Py.count_newlines body + 1) ++ " lines")
               "📊"])
  /\ (body <> "" /\ Py.len body <= 100 ->
       exists preview,
         w' = extend w [ui_log_activity ("Result: " ++ preview) "📊"]
         /\ Py.len preview <= 53 <= 100
         /\ (Py.len body <= 50 -> preview = Py.replace_newlines body)
         /\ (50 < Py.len body ->
              preview = Py.replace_newlines (Py.take 50 body) ++ "..."
              /\ Py.len (Py.take 50 body) = 50
              /\ exists rest, body = Py.take 50 body ++ rest))
  /\ snd (RepoExplorer._log_tool_result (Some "") w) = w
  /\ snd (RepoExplorer._log_tool_result None w) = w
  /\ (forall content : option string,
        snd (Crystallizer._log_tool_result content w)
          = extend w [ui_log_activity "File written successfully" written_icon]).
Proof.
  intros w'. subst w'.
  split; [| split; [| split; [reflexivity | split; [reflexivity |]]]].
  - intros Hlong. unfold RepoExplorer._log_tool_result, RepoExplorer.content_str.
    destruct (Py.truthy body) eqn:Hne;
      [| destruct body; [cbn in Hlong; lia | discriminate]].
    apply Nat.ltb_lt in Hlong. now rewrite Hlong.
  - intros [Hne Hshort]. apply truthy_nonempty in Hne.
    unfold RepoExplorer._log_tool_result, RepoExplorer.content_str.
    rewrite Hne. apply Nat.ltb_ge in Hshort as Hlong. rewrite Hlong, Hne.
    destruct (50 <? Py.len body)%nat eqn:Hcut.
    + apply Nat.ltb_lt in Hcut.
      exists (Py.replace_newlines (Py.take 50 body) ++ "...").
      split; [reflexivity |].
      assert (Htake : Py.len (Py.take 50 body) = 50)
        by (rewrite len_take; lia).
      split; [| split; [intros; lia |]].
      * rewrite len_append, len_replace_newlines, Htake.
        change (Py.len "...") with 3. lia.
      * intros _. split; [reflexivity |]. split; [exact Htake |].
        apply take_prefix.
    + apply Nat.ltb_ge in Hcut.
      exists (Py.replace_newlines (Py.take 50 body)).
      split; [reflexivity |].
      split; [| split; [intros _; now rewrite take_all | intros; lia]].
      rewrite len_replace_newlines, len_take. lia.
  - intros content. reflexivity.
Qed.

(** C5, as stated, fails for the tool results of the crystallization: a
    body of three lines and more than 100 characters is reported by the
    fixed line, not by its line count. *)
Lemma C5_counterexample :
  100 < Py.len long_body
  /\ Py.count_newlines long_body + 1 = 3
  /\ calls (snd (Crystallizer._log_tool_result (Some long_body) world0))
     = [ui_log_activity "File written successfully" written_icon]
  /\ calls (snd (Crystallizer._log_tool_result (Some long_body) world0))
     <> [ui_log_activity "Result: 3 lines" "📊"].
Proof.
  split; [vm_compute; lia |]. split; [reflexivity |].
  split; [reflexivity | discriminate].
Qed.

(** ** [VibeEngineer._get_user_input] *)

Section InputRequests.

Import VibeEngineer.

Variable human : nat -> string.

(** Interactive mode: the request is one [prompt_user] on the display. *)
Lemma get_user_input_interactive (self : t) (prompt : string) (w : World) :
  demo_mode self = false ->
  _get_user_input human self prompt w =
    (human (asked w), self,
     {| calls := (calls w ++ [ui_prompt_user prompt (human (asked w))])%list;
        asked := S (asked w) |}).
Proof. intros Hdemo. unfold _get_user_input. rewrite Hdemo. reflexivity. Qed.

(** Demo mode, list exhausted: every request answers ["done"] and calls
    nothing. *)
Lemma ask_exhausted (n : nat) (self : t) (w : World) :
  demo_mode self = true ->
  length (demo_responses self) <= demo_response_index self ->
  ask human n self w = (replicate n "done", self, w).
Proof.
  intros Hdemo Hlen. induction n as [|n IH]; [reflexivity |].
  cbn [ask]. unfold mbind, M_bind at 1. unfold _get_user_input.
  rewrite Hdemo, (lookup_ge_None_2 _ _ Hlen).
  unfold mret at 1, M_ret at 1. unfold M_bind at 1. rewrite IH. reflexivity.
Qed.

(** Demo mode: [n] requests from cursor [k] answer the next entries of the
    list, then ["done"]; the only calls made are the one-second sleeps. *)
Lemma ask_demo (n : nat) : forall (self : t) (w : World),
  demo_mode self = true ->
  let k := demo_response_index self in
  let rs := demo_responses self in
  let m := n `min` (length rs - k) in
  ask human n self w =
    ((take n (drop k rs) ++ replicate (n - (length rs - k)) "done")%list,
     Nat.iter m advance self,
     {| calls := (calls w ++ replicate m (asyncio_sleep 1))%list;
        asked := asked w |}).
Proof.
  induction n as [|n IH]; intros self w Hdemo k rs m.
  - subst m. simpl. rewrite app_nil_r. now destruct w.
  - destruct (rs !! k) as [r|] eqn:Hk.
    + pose proof (lookup_lt_Some _ _ _ Hk) as Hlt.
      cbn [ask]. unfold mbind, M_bind at 1. unfold _get_user_input.
      fold rs k. rewrite Hdemo, Hk.
      unfold call, mbind, M_bind at 1. unfold mret at 1, M_ret at 1.
      unfold M_bind at 1.
      rewrite IH by exact Hdemo. cbn [advance demo_response_index demo_responses].
      fold rs k. unfold mret, M_ret. cbn [calls asked].
      assert (Hm : m = S (n `min` (length rs - S k))) by (subst m; lia).
      rewrite Hm, (drop_S _ _ _ Hk), Nat.iter_succ_r. cbn [take replicate].
      replace (S n - (length rs - k)) with (n - (length rs - S k)) by lia.
      rewrite <- app_assoc. reflexivity.
    + pose proof (lookup_ge_None_1 _ _ Hk) as Hge.
      rewrite ask_exhausted by assumption.
      assert (Hm : m = 0) by (subst m; lia). rewrite Hm.
      rewrite drop_ge by assumption. rewrite take_nil.
      replace (length rs - k) with 0 by lia. rewrite Nat.sub_0_r.
      simpl. rewrite app_nil_r. now destruct w.
Qed.

(** The answer to request number [i] of a run that starts at cursor 0. *)
Lemma ask_demo_lookup (self : t) (w : World) (n i : nat) :
  demo_mode self = true ->
  demo_response_index self = 0 ->
  i < n ->
  fst (fst (ask human n self w)) !! i
    = Some (default "done" (demo_responses self !! i)).
Proof.
  intros Hdemo Hzero Hi.
  rewrite (ask_demo n self w Hdemo). cbn [fst].
  rewrite Hzero, drop_0, Nat.sub_0_r.
  destruct (demo_responses self !! i) as [r|] eqn:Hr; cbn [default].
  - pose proof (lookup_lt_Some _ _ _ Hr) as Hlt.
    rewrite lookup_app_l by (rewrite length_take; lia).
    now rewrite lookup_take_lt.
  - pose proof (lookup_ge_None_1 _ _ Hr) as Hge.
    rewrite lookup_app_r by (rewrite length_take; lia).
    apply lookup_replicate_2. rewrite length_take. lia.
Qed.

End InputRequests.

Section ScriptedMode.

Import VibeEngineer.

Variable human : nat -> string.

(** C2, amended.  In scripted mode, starting with the cursor at 0, request
    number [i] answers entry [i] of the canned list while [i] is less than
    its length, and ["done"] on every later request, whatever the length of
    the list. *)
Theorem C2_scripted_input_then_done (self : t) (w : World) (n i : nat) :
  demo_mode self = true ->
  demo_response_index self = 0 ->
  i < n ->
  fst (fst (ask human n self w)) !! i
    = Some (default "done" (demo_responses self !! i)).
Proof. apply ask_demo_lookup. Qed.

End ScriptedMode.

(** C2, as stated, fails: the sixth request of a demo run (the five canned
    entries are used up) does not answer ["finish the session"]. *)
Lemma C2_counterexample :
  fst (fst (VibeEngineer.ask silent 6 demo_engineer world0)) !! 5
    <> Some "finish the session".
Proof. vm_compute. discriminate. Qed.

Lemma C2_witness :
  fst (fst (VibeEngineer.ask silent 7 demo_engineer world0)) !! 5
    = Some (default "done" (VibeEngineer.demo_responses demo_engineer !! 5)).
Proof.
  apply (C2_scripted_input_then_done silent demo_engineer world0 7 5);
    [reflexivity | reflexivity | lia].
Defined.

(** C10.  With demo mode on, the answers to the first [n + 1] requests are
    the same in any two runs, whatever the human would type, whatever was
    asked of the display before and whatever the analysis and the feature
    are: they are the five canned entries, then ["done"].  No request calls
    [prompt_user]: the only calls made are one-second sleeps. *)
Theorem C10_demo_input_deterministic
    (human1 human2 : nat -> string)
    (analysis1 analysis2 : RepoAnalysis)
    (feature1 feature2 : string) (w1 w2 : World) (n : nat) :
  let run1 :=
    VibeEngineer.ask human1 (S n)
      (VibeEngineer.__init__ analysis1 feature1 true) w1 in
  let run2 :=
    VibeEngineer.ask human2 (S n)
      (VibeEngineer.__init__ analysis2 feature2 true) w2 in
  fst (fst run1) = fst (fst run2)
  /\ fst (fst run1) !! n
       = Some (default "done"
                 (VibeEngineer.demo_responses
                    (VibeEngineer.__init__ analysis1 feature1 true) !! n))
  /\ length (VibeEngineer.demo_responses
               (VibeEngineer.__init__ analysis1 feature1 true)) = 5
  /\ (exists k, calls (snd run1) = (calls w1 ++ replicate k (asyncio_sleep 1))%list)
  /\ asked (snd run1) = asked w1.
Proof.
  intros run1 run2. subst run1 run2.
  split; [now rewrite !ask_demo by reflexivity |].
  split; [apply ask_demo_lookup; reflexivity || lia |].
  split; [reflexivity |].
  rewrite ask_demo by reflexivity. cbn [snd calls asked].
  split; [eauto | reflexivity].
Qed.

(** ** The loop of [VibeEngineer.engineer] *)

Local Open Scope list_scope.

Section TurnLoop.

Import VibeEngineer.

Variable human : nat -> string.

Lemma extend_extend (w : World) (cs1 cs2 : list Call) :
  extend (extend w cs1) cs2 = extend w (cs1 ++ cs2).
Proof. unfold extend. simpl. now rewrite app_assoc. Qed.

(** One request for input calls the display or sleeps; it never calls the
    agent and writes no message. *)
Lemma get_user_input_calls (self : t) (w : World) :
  let request := _get_user_input human self "" w in
  exists cs,
    snd request = {| calls := calls w ++ cs; asked := asked (snd request) |}
    /\ (cs = [ui_prompt_user "" (fst (fst request))]
        \/ cs = [asyncio_sleep 1] \/ cs = []).
Proof.
  unfold _get_user_input.
  destruct (demo_mode self).
  - destruct (demo_responses self !! demo_response_index self); simpl.
    + exists [asyncio_sleep 1]. auto.
    + exists []. rewrite app_nil_r. destruct w; auto.
  - simpl. exists [ui_prompt_user "" (human (asked w))]. auto.
Qed.

(** Lines 100-114 by cases on the line that came back. *)
Lemma human_turn_cases (self : t) (history : list Turn) (w : World) :
  let request := _get_user_input human self "" w in
  let u := fst (fst request) in
  let self1 := snd (fst request) in
  let w1 := snd request in
  human_turn human self history w =
    if negb (Py.truthy u) then (Continue, self1, history, w1)
    else if Py.among (Py.lower u) ending then (Break, self1, history, w1)
    else (Continue, self1, history ++ [user_turn u],
          extend w1 [ui_add_message "user" u;
                     ui_update_agent_status "VibeEngineer" "Thinking...";
                     client_query u]).
Proof.
  intros request u self1 w1. subst u self1 w1 request.
  unfold human_turn, mbind, M_bind.
  destruct (_get_user_input human self "" w) as [[u self1] w1]. cbn [fst snd].
  destruct (Py.truthy u); cbn [negb]; [| reflexivity].
  destruct (Py.among (Py.lower u) ending); [reflexivity |].
  unfold call, mret, M_ret, extend. simpl. now rewrite <- !app_assoc.
Qed.

(** Lines 103-104: on an empty line the iteration ends by [continue],
    with the transcript as it was and nothing sent to the agent; the loop
    then starts over at its first statements, the wait for the agent. *)
Lemma human_turn_empty (self : t) (history : list Turn) (w : World) :
  let request := _get_user_input human self "" w in
  fst (fst request) = "" ->
  human_turn human self history w
    = (Continue, snd (fst request), history, snd request).
Proof.
  intros request Hempty. rewrite human_turn_cases. cbv zeta.
  fold request. now rewrite Hempty.
Qed.

(** Lines 80-116 when the agent said nothing: the loop is left. *)
Lemma after_response_empty (self : t) (history : list Turn) (w : World) :
  after_response human "" self history w =
    (Break, self, history, extend w [ui_log_activity "Response length: 0" "📝"]).
Proof. reflexivity. Qed.

(** Lines 80-116 when the agent did not say that it is ready. *)
Lemma after_response_not_ready (r : string) (self : t) (history : list Turn)
    (w : World) :
  Py.truthy r = true ->
  says_ready r = false ->
  after_response human r self history w =
    human_turn human self (history ++ [assistant_turn r])
      (extend w [ui_log_activity
                   ("Response length: " ++ Py.str_nat (Py.len r))%string "📝";
                 ui_add_message "agent" r]).
Proof.
  intros Hr Hready. unfold after_response, confirm_ready, mbind, M_bind, call.
  rewrite Hr, Hready. unfold mret, M_ret, extend. simpl.
  now rewrite <- !app_assoc.
Qed.

(** Lines 80-116 when the agent said that it is ready. *)
Lemma after_response_ready (r : string) (self : t) (history : list Turn)
    (w : World) :
  Py.truthy r = true ->
  says_ready r = true ->
  let shown :=
    extend w [ui_log_activity
                ("Response length: " ++ Py.str_nat (Py.len r))%string "📝";
              ui_add_message "agent" r;
              ui_add_message "agent" "Ready to generate SPEC.md? (yes/no)"] in
  let request := _get_user_input human self "" shown in
  let confirm := fst (fst request) in
  let self1 := snd (fst request) in
  let w2 := extend (snd request) [ui_add_message "user" confirm] in
  after_response human r self history w =
    if Py.among (Py.lower confirm) affirmative
    then (Break, self1, history ++ [assistant_turn r], w2)
    else human_turn human self1 (history ++ [assistant_turn r]) w2.
Proof.
  intros Hr Hready shown request confirm self1 w2.
  subst w2 self1 confirm request.
  unfold after_response, confirm_ready, mbind, M_bind, call.
  rewrite Hr, Hready.
  replace {| calls := (calls {| calls := (calls {| calls := (calls w ++ _)%list; asked := _ |} ++ _)%list; asked := _ |} ++ _)%list; asked := _ |}
    with shown by (subst shown; unfold extend; simpl; now rewrite <- !app_assoc).
  destruct (_get_user_input human self "" shown) as [[confirm self1] w1].
  cbn [fst snd]. unfold mret, M_ret.
  destruct (Py.among (Py.lower confirm) affirmative); reflexivity.
Qed.

Lemma not_among (x : string) (l : list string) :
  Py.among x l = false <-> x ∉ l.
Proof. unfold Py.among. apply bool_decide_eq_false. Qed.

Lemma loop_nil (self : t) (history : list Turn) (w : World) :
  loop human [] self history w =
    (self, history,
     extend (received w) [ui_log_activity "Response length: 0" "📝"]).
Proof.
  unfold received. rewrite extend_extend. unfold extend. simpl.
  unfold mbind, M_bind, call, mret, M_ret. simpl. now rewrite <- !app_assoc.
Qed.

Lemma loop_cons (messages : list Message) (agent' : list (list Message))
    (self : t) (history : list Turn) (w : World) :
  loop human (messages :: agent') self history w =
    let result :=
      after_response human (text_of_response "" messages) self history
        (received w) in
    match fst (fst (fst result)) with
    | Break => (snd (fst (fst result)), snd (fst result), snd result)
    | Continue =>
        loop human agent' (snd (fst (fst result))) (snd (fst result)) (snd result)
    end.
Proof.
  cbn [loop]. unfold mbind at 1 2 3, M_bind at 1 2 3, call at 1 2.
  replace {| calls := (calls {| calls := (calls w ++ _)%list; asked := _ |} ++ _)%list;
             asked := _ |}
    with (received w)
    by (unfold received, extend; simpl; now rewrite <- !app_assoc).
  cbv zeta.
  destruct (after_response human (text_of_response "" messages) self history
              (received w)) as [[[ctl self1] history1] w1].
  cbn [fst snd]. destruct ctl; reflexivity.
Qed.

(** What one request for the human's message may add to the transcript. *)
Lemma human_turn_appends (self : t) (history : list Turn) (w : World) :
  exists added,
    snd (fst (human_turn human self history w)) = history ++ added
    /\ Forall valid_entry added.
Proof.
  rewrite human_turn_cases.
  destruct (Py.truthy _) eqn:Hu; cbn [negb].
  - destruct (Py.among _ ending) eqn:Hend; cbn [fst snd].
    + exists []. now rewrite app_nil_r.
    + eexists. split; [reflexivity |].
      constructor; [| constructor]. right. cbn.
      split; [reflexivity |]. split.
      * now apply truthy_nonempty.
      * now apply not_among.
  - exists []. cbn [fst snd]. now rewrite app_nil_r.
Qed.

Lemma after_response_appends (r : string) (self : t) (history : list Turn)
    (w : World) :
  exists added,
    snd (fst (after_response human r self history w)) = history ++ added
    /\ Forall valid_entry added.
Proof.
  destruct (Py.truthy r) eqn:Hr.
  - assert (Hentry : valid_entry (assistant_turn r)).
    { left. split; [reflexivity |]. now apply truthy_nonempty. }
    destruct (says_ready r) eqn:Hready.
    + rewrite after_response_ready by assumption. cbv zeta.
      destruct (Py.among _ affirmative).
      * exists [assistant_turn r]. cbn [fst snd]. split; [reflexivity |].
        now constructor.
      * edestruct human_turn_appends as (added & -> & Hadded).
        exists (assistant_turn r :: added). rewrite <- app_assoc.
        split; [reflexivity |]. now constructor.
    + rewrite after_response_not_ready by assumption.
      edestruct human_turn_appends as (added & -> & Hadded).
      exists (assistant_turn r :: added). rewrite <- app_assoc.
      split; [reflexivity |]. now constructor.
  - destruct r; [| discriminate]. rewrite after_response_empty.
    exists []. cbn [fst snd]. now rewrite app_nil_r.
Qed.

Lemma loop_appends (agent : list (list Message)) :
  forall (self : t) (history : list Turn) (w : World),
  exists added,
    snd (fst (loop human agent self history w)) = history ++ added
    /\ Forall valid_entry added.
Proof.
  induction agent as [|messages agent' IH]; intros self history w.
  - rewrite loop_nil. exists []. cbn [fst snd]. now rewrite app_nil_r.
  - rewrite loop_cons. cbv zeta.
    destruct (after_response_appends (text_of_response "" messages) self history
                (received w)) as (added & Hadd & Hvalid).
    destruct (fst (fst (fst _))).
    + rewrite Hadd.
      edestruct IH as (added' & -> & Hvalid').
      exists (added ++ added'). rewrite app_assoc. split; [reflexivity |].
      now apply Forall_app_2.
    + exists added. cbn [fst snd]. now split.
Qed.

End TurnLoop.

Section TurnLoopClaims.

Import VibeEngineer.

Variable human : nat -> string.

(** C4.  When a non-empty agent response contains the marker [SPEC_READY]
    or, in lower case, the phrase [ready to generate], the loop shows the
    question and asks for a confirmation through [_get_user_input].  An
    affirmative answer leaves the loop.  Any other answer goes on with the
    ordinary request for the human's message, exactly as after a response
    that did not say ready; a non-empty, non-ending message given there is
    appended to the transcript and the loop continues. *)
Theorem C4_readiness_confirmation (self : t) (r : string)
    (history : list Turn) (w : World) :
  r <> "" ->
  Py.contains "SPEC_READY" r = true
    \/ Py.contains "ready to generate" (Py.lower r) = true ->
  let shown :=
    extend w [ui_log_activity
                ("Response length: " ++ Py.str_nat (Py.len r))%string "📝";
              ui_add_message "agent" r;
              ui_add_message "agent" "Ready to generate SPEC.md? (yes/no)"] in
  let request := _get_user_input human self "" shown in
  let confirm := fst (fst request) in
  let self1 := snd (fst request) in
  let w2 := extend (snd request) [ui_add_message "user" confirm] in
  let history1 := history ++ [assistant_turn r] in
  let next := _get_user_input human self1 "" w2 in
  let u := fst (fst next) in
  (Py.lower confirm ∈ affirmative ->
     after_response human r self history w = (Break, self1, history1, w2))
  /\ (Py.lower confirm ∉ affirmative ->
       after_response human r self history w
         = human_turn human self1 history1 w2)
  /\ (Py.lower confirm ∉ affirmative -> u <> "" -> Py.lower u ∉ ending ->
       fst (after_response human r self history w)
         = (Continue, snd (fst next), history1 ++ [user_turn u])).
Proof.
  intros Hr Hready shown request confirm self1 w2 history1 next u.
  apply truthy_nonempty in Hr.
  assert (Hsays : says_ready r = true).
  { unfold says_ready. destruct Hready as [-> | ->]; [reflexivity |].
    apply orb_true_r. }
  pose proof (after_response_ready human r self history w Hr Hsays) as Heq.
  cbv zeta in Heq. fold shown request confirm self1 w2 history1 in Heq.
  split; [| split].
  - intros Hyes. apply among_spec in Hyes. now rewrite Heq, Hyes.
  - intros Hno. apply not_among in Hno. now rewrite Heq, Hno.
  - intros Hno Hu Hend. apply not_among in Hno. rewrite Heq, Hno.
    rewrite human_turn_cases. cbv zeta. fold next u.
    apply truthy_nonempty in Hu. apply not_among in Hend.
    now rewrite Hu, Hend.
Qed.

(** C6.  At the request for the human's message (line 101): when the line
    that comes back is, in lower case, one of [done], [exit], [quit],
    [finish], the iteration ends by [break] with the transcript as it was;
    the request made no call on the agent; and an iteration that ends by
    [break] ends the loop there, whatever the agent would have said next.
    At the confirmation that follows a response saying ready (lines
    94-98) only [done] among these tokens ends the loop; [exit], [quit]
    and [finish] are answers like any other that is not affirmative: the
    loop goes on to the request for the human's message. *)
Theorem C6_ending_token_ends_loop (self : t) (r : string)
    (history : list Turn) (w : World) :
  let request := _get_user_input human self "" w in
  let u := fst (fst request) in
  let shown :=
    extend w [ui_log_activity
                ("Response length: " ++ Py.str_nat (Py.len r))%string "📝";
              ui_add_message "agent" r;
              ui_add_message "agent" "Ready to generate SPEC.md? (yes/no)"] in
  let confirmation := _get_user_input human self "" shown in
  let confirm := fst (fst confirmation) in
  let self1 := snd (fst confirmation) in
  let w2 := extend (snd confirmation) [ui_add_message "user" confirm] in
  (Py.lower u ∈ ending ->
     human_turn human self history w
       = (Break, snd (fst request), history, snd request)
     /\ List.filter is_agent_call (calls (snd request))
        = List.filter is_agent_call (calls w))
  /\ (forall messages agent' self0 history0 w0 self' history' w',
        after_response human (text_of_response "" messages) self0 history0
          (received w0) = (Break, self', history', w') ->
        loop human (messages :: agent') self0 history0 w0
          = (self', history', w'))
  /\ (r <> "" -> says_ready r = true ->
      (Py.lower confirm = "done" ->
         after_response human r self history w
           = (Break, self1, history ++ [assistant_turn r], w2))
      /\ (Py.lower confirm ∈ ["exit"; "quit"; "finish"] ->
           after_response human r self history w
             = human_turn human self1 (history ++ [assistant_turn r]) w2)).
Proof.
  intros request u shown confirmation confirm self1 w2.
  split; [| split].
  - intros Hend. split.
    + rewrite human_turn_cases. cbv zeta. fold request u.
      apply among_spec in Hend. rewrite Hend.
      destruct (Py.truthy u) eqn:Hu; [reflexivity |].
      destruct u; [| discriminate]. discriminate Hend.
    + destruct (get_user_input_calls human self w) as (cs & Hw1 & Hcs).
      fold request in Hw1, Hcs. rewrite Hw1. cbn [calls].
      rewrite List.filter_app.
      destruct Hcs as [-> | [-> | ->]]; cbn; now rewrite app_nil_r.
  - intros messages agent' self0 history0 w0 self' history' w' Hbreak.
    rewrite loop_cons. cbv zeta. now rewrite Hbreak.
  - intros Hr Hready. apply truthy_nonempty in Hr.
    pose proof (after_response_ready human r self history w Hr Hready) as Heq.
    cbv zeta in Heq. fold shown confirmation confirm self1 w2 in Heq.
    split.
    + intros Hdone. now rewrite Heq, Hdone.
    + intros Hother. rewrite Heq.
      replace (Py.among (Py.lower confirm) affirmative) with false;
        [reflexivity |].
      symmetry. apply not_among. unfold affirmative.
      rewrite !elem_of_cons, elem_of_nil in Hother |- *.
      intros [Heq' | [Heq' | [Heq' | []]]]; rewrite Heq' in Hother;
        destruct Hother as [H | [H | [H | []]]]; discriminate H.
Qed.

(** C9.  The answer to [Ready to generate SPEC.md? (yes/no)] is shown in the
    conversation panel and is not what goes into the transcript: after such
    an iteration the transcript has gained the agent's response and, at
    most, the line [u] that came back from the request made after the
    confirmation.  Over a whole run the loop only ever appends non-empty
    agent responses and non-empty human messages that are not ending
    tokens. *)
Theorem C9_confirmation_not_in_transcript :
  (forall (self : t) (r : string) (history : list Turn) (w : World),
     r <> "" -> says_ready r = true ->
     let shown :=
       extend w [ui_log_activity
                   ("Response length: " ++ Py.str_nat (Py.len r))%string "📝";
                 ui_add_message "agent" r;
                 ui_add_message "agent" "Ready to generate SPEC.md? (yes/no)"] in
     let request := _get_user_input human self "" shown in
     let confirm := fst (fst request) in
     let w2 := extend (snd request) [ui_add_message "user" confirm] in
     let next := _get_user_input human (snd (fst request)) "" w2 in
     let u := fst (fst next) in
     let result := after_response human r self history w in
     (exists cs,
        calls (snd result)
          = calls (snd request) ++ (ui_add_message "user" confirm :: cs))
     /\ (snd (fst result) = history ++ [assistant_turn r]
         \/ (snd (fst result) = history ++ [assistant_turn r; user_turn u]
             /\ (Py.lower confirm ∉ affirmative)
             /\ u <> "" /\ (Py.lower u ∉ ending))))
  /\ (forall (agent : list (list Message)) (self : t) (history : list Turn)
             (w : World),
        exists added,
          snd (fst (loop human agent self history w)) = history ++ added
          /\ Forall valid_entry added).
Proof.
  split; [| intros; apply loop_appends].
  intros self r history w Hr Hready shown request confirm w2 next u result.
  apply truthy_nonempty in Hr.
  pose proof (after_response_ready human r self history w Hr Hready) as Heq.
  cbv zeta in Heq. fold shown request confirm w2 in Heq.
  subst result. rewrite Heq. clear Heq.
  destruct (Py.among (Py.lower confirm) affirmative) eqn:Hyes.
  - cbn [fst snd]. split; [exists []; reflexivity | now left].
  - rewrite human_turn_cases. cbv zeta. fold next u.
    destruct (get_user_input_calls human (snd (fst request)) w2)
      as (cs & Hw & _).
    fold next in Hw.
    destruct (Py.truthy u) eqn:Hu; cbn [negb].
    + destruct (Py.among (Py.lower u) ending) eqn:Hend; cbn [fst snd].
      * split; [| now left]. rewrite Hw. cbn. rewrite <- app_assoc. eauto.
      * split.
        -- rewrite Hw. cbn. rewrite <- !app_assoc. eauto.
        -- right. rewrite <- app_assoc.
           repeat split; try reflexivity.
           ++ now apply not_among.
           ++ now apply truthy_nonempty.
           ++ now apply not_among.
    + cbn [fst snd]. split; [| now left].
      rewrite Hw. cbn. rewrite <- app_assoc. eauto.
Qed.

End TurnLoopClaims.

Lemma C4_witness :
  fst (VibeEngineer.after_response declines "SPEC_READY" live_engineer []
         world0)
    = (VibeEngineer.Continue, live_engineer,
       [assistant_turn "SPEC_READY"; user_turn "more detail"]).
Proof.
  refine (proj2 (proj2
    (C4_readiness_confirmation declines live_engineer "SPEC_READY" [] world0
       _ (or_introl eq_refl))) _ _ _).
  - discriminate.
  - apply not_among. reflexivity.
  - discriminate.
  - apply not_among. reflexivity.
Defined.

Lemma C6_witness :
  VibeEngineer.human_turn quits live_engineer
      [assistant_turn "What do you want?"] world0
    = (VibeEngineer.Break, live_engineer,
       [assistant_turn "What do you want?"],
       {| calls := [ui_prompt_user "" "QUIT"]; asked := 1 |}).
Proof.
  refine (proj1 (proj1
    (C6_ending_token_ends_loop quits live_engineer "SPEC_READY"
       [assistant_turn "What do you want?"] world0) _)).
  apply among_spec. reflexivity.
Defined.

(** C6, as stated, fails at the confirmation: the agent says that it is
    ready and the human answers [quit], an ending token.  The iteration
    does not end the loop: the human is asked again, and the next line is
    appended to the transcript and sent to the agent. *)
Lemma C6_counterexample :
  Py.lower (quits_then_answers 0) ∈ VibeEngineer.ending
  /\ fst (VibeEngineer.after_response quits_then_answers "SPEC_READY"
            live_engineer [] world0)
     <> (VibeEngineer.Break, live_engineer, [assistant_turn "SPEC_READY"])
  /\ fst (VibeEngineer.after_response quits_then_answers "SPEC_READY"
            live_engineer [] world0)
     = (VibeEngineer.Continue, live_engineer,
        [assistant_turn "SPEC_READY"; user_turn "more detail"])
  /\ last (calls (snd (VibeEngineer.after_response quits_then_answers
                         "SPEC_READY" live_engineer [] world0)))
     = Some (client_query "more detail").
Proof.
  split; [apply among_spec; reflexivity |].
  split; [vm_compute; discriminate |].
  split; reflexivity.
Qed.

(** C1.  The agent asks its first question and the human submits an empty
    line.  No entry is appended for the empty line and nothing is sent to
    the agent, but the next thing the loop does is not another request for
    input: it logs the wait and reads from the agent again (a turn for
    which no message was sent).  Here that read yields nothing and the
    session ends with one request for input in all. *)
Theorem C1_empty_input_reads_agent_again :
  VibeEngineer.engineer silent one_question live_engineer world0
    = ({| VibeEngineer.conversation := [assistant_turn "What do you want?"];
          VibeEngineer.session_repo_analysis := sample_analysis;
          VibeEngineer.session_feature_request := "add a health check endpoint" |},
       live_engineer,
       {| calls :=
            [ui_update_phase "engineer";
             ui_update_agent_status "VibeEngineer" "Starting session...";
             ui_log_activity "Vibe engineering session started" "🎯";
             ui_log_activity "Feature: add a health check endpoint..." "📋";
             client_query
               ("Repository Analysis:" ++ nl ++ "Stack: Python"
                ++ nl ++ nl
                ++ "Feature Request: add a health check endpoint"
                ++ nl ++ nl
                ++ "Start the vibe engineering conversation. Ask your first question to understand what the user really wants.")%string;
             ui_update_agent_status "VibeEngineer" "Thinking...";
             ui_log_activity "Waiting for Claude response..." "⏳";
             client_receive_response;
             ui_log_activity "Response length: 17" "📝";
             ui_add_message "agent" "What do you want?";
             ui_prompt_user "" "";
             ui_log_activity "Waiting for Claude response..." "⏳";
             client_receive_response;
             ui_log_activity "Response length: 0" "📝";
             ui_update_agent_status "VibeEngineer" "Session complete";
             ui_log_activity "Engineering session complete" "✅"];
          asked := 1 |}).
Proof. vm_compute. reflexivity. Qed.

(** ** [OverkillApp.prompt_user] and [on_input_submitted] *)

Section InputSlot.

Import OverkillApp.

(** One [prompt_user] alone: the submitted line is what it returns, and the
    slot is empty again. *)
Lemma prompt_user_round_trip (question value : string) (app : t) :
  let started := prompt_user_begin question app in
  let submitted := on_input_submitted value (snd started) in
  woken (fst started) submitted = true
  /\ fst (prompt_user_end submitted) = value
  /\ _input_event (snd (prompt_user_end submitted)) = None.
Proof.
  cbn. split; [| split; reflexivity].
  unfold woken. cbn. apply bool_decide_eq_true.
  rewrite list_lookup_insert_eq by (rewrite length_app; cbn; lia).
  reflexivity.
Qed.

(** C3, amended.  A second [prompt_user] made while one is outstanding is
    not detected: it creates a second event and puts it in the slot in place
    of the first.  The line submitted next sets the second event only, so
    the first caller is not woken by it. *)
Theorem C3_second_prompt_replaces_slot (question value : string) (app : t)
    (event : nat) :
  _input_event app = Some event ->
  events app !! event = Some false ->
  let second := prompt_user_begin question app in
  let event' := fst second in
  let app' := snd second in
  let submitted := on_input_submitted value app' in
  event' <> event
  /\ events app' = events app ++ [false]
  /\ _input_event app' = Some event'
  /\ events submitted !! event' = Some true
  /\ events submitted !! event = Some false
  /\ _input_value submitted = value.
Proof.
  intros Hslot Hevent second event' app' submitted.
  pose proof (lookup_lt_Some _ _ _ Hevent) as Hlt.
  subst submitted app' event' second. cbn.
  split; [lia |]. split; [reflexivity |]. split; [reflexivity |].
  split; [| split; [| reflexivity]].
  - rewrite list_lookup_insert_eq by (rewrite length_app; cbn; lia).
    reflexivity.
  - rewrite list_lookup_insert_ne by lia.
    now rewrite lookup_app_l.
Qed.

End InputSlot.

(** C3, as stated, fails: on an app with one [prompt_user] outstanding, a
    second [prompt_user] is not refused. *)
Lemma C3_counterexample :
  OverkillApp.outstanding waiting_app
  /\ ~ second_prompt_refused "" waiting_app.
Proof.
  split.
  - exists 0. split; reflexivity.
  - intros [Hevents _]. discriminate Hevents.
Qed.

Lemma C3_witness :
  let second := OverkillApp.prompt_user_begin "" waiting_app in
  let submitted := OverkillApp.on_input_submitted "hello" (snd second) in
  fst second <> 0
  /\ OverkillApp.events (snd second) = [false; false]
  /\ OverkillApp._input_event (snd second) = Some (fst second)
  /\ OverkillApp.events submitted !! fst second = Some true
  /\ OverkillApp.events submitted !! 0 = Some false
  /\ OverkillApp._input_value submitted = "hello".
Proof.
  exact (C3_second_prompt_replaces_slot "" "hello" waiting_app 0
           eq_refl eq_refl).
Defined.

(** ** [TextualUI.shutdown] *)

(** What the guard of [shutdown] decides: an app that does not run is
    left alone, and a second [shutdown()] is a second [exit()] exactly when
    the app still runs after the first.  What [exit()] does to an app, and
    what a second [exit()] adds, is decided by [textual]. *)
Lemma shutdown_twice {App : Type} (is_running : App -> bool)
    (exit : App -> App) (app : App) :
  TextualUI.shutdown is_running exit (TextualUI.shutdown is_running exit app)
    = if is_running app
      then if is_running (exit app) then exit (exit app) else exit app
      else app.
Proof.
  unfold TextualUI.shutdown. destruct (is_running app) eqn:Hrun;
    [reflexivity | now rewrite Hrun].
Qed.

(** ** [run_pipeline] *)

Section Cleanup.

Import Main.

Context {Analysis Session : Type}.
Variable mkdtemp : gset Path -> Path.
Variable git_clone : string -> Path -> Ext unit.
Variable resolve : string -> Path.
Variable explore : Path -> Ext Analysis.
Variable engineer : Analysis -> string -> bool -> Ext Session.
Variable crystallize : Session -> Path -> Ext string.

(** After [rmtree p] neither [p] nor anything below it exists. *)
Lemma rmtree_gone (p : Path) (o : Outside) :
  (p ∉ fs (rmtree p o)) /\ forall q, q ∈ fs (rmtree p o) -> ~ p `prefix_of` q.
Proof.
  unfold rmtree. cbn [fs]. split.
  - intros Hin. apply elem_of_filter in Hin as [Hnot _]. now apply Hnot.
  - intros q Hin. now apply elem_of_filter in Hin as [Hnot _].
Qed.

(** The [finally] block of a run whose [cleanup] is set removes the
    directory that [repo_path] names. *)
Lemma pipeline_finally_removes (p : Path) (o : Outside) :
  let final :=
    outside (pipeline_finally
               {| outside := o; cleanup := true; repo_path := Some p |}) in
  (p ∉ fs final) /\ forall q, q ∈ fs final -> ~ p `prefix_of` q.
Proof. cbn. apply rmtree_gone. Qed.

(** C7.  When the repository argument is a URL and [clone_repo] returned the
    directory [p], then however each of the three phases ends (it returns,
    it raises an [Exception], it raises a bare [BaseException]) and
    whatever the phases did to the file system, [p] and everything below it
    is gone when [run_pipeline] is left. *)
Theorem C7_cleanup_on_every_exit (args : Args) (o : Outside) (p : Path) :
  Py.startswith_any (repo args) ["http://"; "https://"; "git@"] = true ->
  fst (clone_repo mkdtemp git_clone (repo args)
         (log ("Cloning " ++ repo args ++ "...")%string "📥" o)) = inl p ->
  let final :=
    snd (run_pipeline Analysis Session mkdtemp git_clone resolve explore
           engineer crystallize args o) in
  (p ∉ fs final) /\ forall q, q ∈ fs final -> ~ p `prefix_of` q.
Proof.
  intros Hurl Hclone final. subst final.
  unfold run_pipeline, pipeline_body.
  rewrite Hurl.
  unfold mbind, P_bind, mret, P_ret, log_activity, await, set_repo_path,
    set_cleanup, set_outside.
  cbn [outside cleanup repo_path fst snd].
  destruct (clone_repo mkdtemp git_clone (repo args) _) as [[p' | e] o1];
    cbn [fst] in Hclone; [| discriminate].
  injection Hclone as ->.
  cbn [outside cleanup repo_path fst snd].
  destruct (explore p _) as [[analysis | e] o2];
    cbn [outside cleanup repo_path fst snd].
  - destruct (engineer analysis (feature args) (demo args) o2)
      as [[session | e] o3]; cbn [outside cleanup repo_path fst snd].
    + destruct (crystallize session (resolve (output args)) o3)
        as [[spec_path | e] o4]; cbn [outside cleanup repo_path fst snd].
      * apply pipeline_finally_removes.
      * destruct (is_Exception e); apply pipeline_finally_removes.
    + destruct (is_Exception e); apply pipeline_finally_removes.
  - destruct (is_Exception e); apply pipeline_finally_removes.
Qed.

(** When the clone itself fails, [cleanup] was never set: [run_pipeline]
    leaves the file system as the failed clone left it, with the directory
    that [mkdtemp] made, and only logs the error. *)
Lemma clone_failure_keeps_directory (args : Args) (o : Outside) (e : Exn) :
  Py.startswith_any (repo args) ["http://"; "https://"; "git@"] = true ->
  let cloning := log ("Cloning " ++ repo args ++ "...")%string "📥" o in
  fst (clone_repo mkdtemp git_clone (repo args) cloning) = inr e ->
  snd (run_pipeline Analysis Session mkdtemp git_clone resolve explore
         engineer crystallize args o)
    = (if is_Exception e
       then log ("Error: " ++ str_exn e)%string "❌"
       else id)
        (snd (clone_repo mkdtemp git_clone (repo args) cloning)).
Proof.
  intros Hurl cloning Hclone.
  unfold run_pipeline, pipeline_body.
  rewrite Hurl.
  unfold mbind, P_bind, mret, P_ret, log_activity, await, set_repo_path,
    set_cleanup, set_outside.
  cbn [outside cleanup repo_path fst snd]. fold cloning.
  destruct (clone_repo mkdtemp git_clone (repo args) cloning) as [[p' | e'] o1];
    cbn [fst] in Hclone; [discriminate |].
  injection Hclone as ->.
  cbn [outside cleanup repo_path fst snd].
  destruct (is_Exception e); reflexivity.
Qed.

End Cleanup.

Lemma C7_witness : sample_tmp ∉ Main.fs (snd sample_run).
Proof.
  exact (proj1
    (C7_cleanup_on_every_exit (fun _ => sample_tmp) sample_git_clone
       (fun s => [s]) sample_explore
       (fun _ _ _ o => (inl tt, o)) (fun _ _ o => (inl "SPEC.md", o))
       sample_args sample_outside sample_tmp eq_refl eq_refl)).
Defined.

(** * Further properties *)

(** ** The transcript and the calls of the loop *)

Section TurnLoopOutcome.

Import VibeEngineer.

Variable human : nat -> string.

Lemma queries_app (cs1 cs2 : list Call) :
  queries (cs1 ++ cs2) = queries cs1 ++ queries cs2.
Proof. apply omap_app. Qed.

Lemma receives_app (cs1 cs2 : list Call) :
  receives (cs1 ++ cs2) = receives cs1 + receives cs2.
Proof. unfold receives. now rewrite List.filter_app, length_app. Qed.

Lemma prompts_app (cs1 cs2 : list Call) :
  prompts (cs1 ++ cs2) = prompts cs1 + prompts cs2.
Proof. unfold prompts. now rewrite List.filter_app, length_app. Qed.

Lemma user_messages_app (h1 h2 : list Turn) :
  user_messages (h1 ++ h2) = user_messages h1 ++ user_messages h2.
Proof. apply omap_app. Qed.

(** The calls of one request for input: no agent call among them. *)
Lemma get_user_input_quiet (self : t) (w : World) :
  let request := _get_user_input human self "" w in
  exists cs,
    calls (snd request) = calls w ++ cs
    /\ queries cs = [] /\ receives cs = 0.
Proof.
  destruct (get_user_input_calls human self w) as (cs & Hw & Hcs).
  cbv zeta. exists cs. rewrite Hw. cbn [calls]. split; [reflexivity |].
  destruct Hcs as [-> | [-> | ->]]; split; reflexivity.
Qed.

(** What the request for the human's message appends and calls. *)
Lemma human_turn_outcome (self : t) (history : list Turn) (w : World) :
  let result := human_turn human self history w in
  exists added cs,
    snd (fst result) = history ++ added
    /\ calls (snd result) = calls w ++ cs
    /\ queries cs = user_messages added
    /\ receives cs = 0
    /\ (added = []
        \/ exists u, added = [user_turn u]
                     /\ fst (fst (fst result)) = Continue
                     /\ u <> "" /\ (Py.lower u ∉ ending)).
Proof.
  cbv zeta. rewrite human_turn_cases. cbv zeta.
  destruct (get_user_input_quiet self w) as (cs & Hw & Hq & Hr).
  destruct (Py.truthy _) eqn:Hu; cbn [negb].
  - destruct (Py.among _ ending) eqn:Hend; cbn [fst snd].
    + exists [], cs. rewrite app_nil_r. repeat split; auto.
    + eexists [user_turn _], (cs ++ _). cbn [extend calls].
      rewrite Hw, <- app_assoc. split; [reflexivity |].
      split; [reflexivity |].
      rewrite queries_app, receives_app, Hq, Hr.
      split; [reflexivity |]. split; [reflexivity |].
      right. eexists. split; [reflexivity |]. split; [reflexivity |].
      split; [now apply truthy_nonempty | now apply not_among].
  - cbn [fst snd]. exists [], cs. rewrite app_nil_r. repeat split; auto.
Qed.

(** What the body of the loop appends and calls for the response [r]. *)
Lemma after_response_outcome (r : string) (self : t) (history : list Turn)
    (w : World) :
  let result := after_response human r self history w in
  exists added cs,
    snd (fst result) = history ++ added
    /\ calls (snd result) = calls w ++ cs
    /\ queries cs = user_messages added
    /\ receives cs = 0
    /\ iteration r (fst (fst (fst result))) added.
Proof.
  cbv zeta. destruct (Py.truthy r) eqn:Hr.
  - assert (Hne : r <> "") by now apply truthy_nonempty.
    assert (Hgrow : forall self1 w2 cs2,
      calls w2 = calls w ++ cs2 -> queries cs2 = [] -> receives cs2 = 0 ->
      let result := human_turn human self1 (history ++ [assistant_turn r]) w2 in
      exists added cs,
        snd (fst result) = history ++ added
        /\ calls (snd result) = calls w ++ cs
        /\ queries cs = user_messages added
        /\ receives cs = 0
        /\ iteration r (fst (fst (fst result))) added).
    { intros self1 w2 cs2 Hw2 Hq2 Hr2. cbv zeta.
      destruct (human_turn_outcome self1 (history ++ [assistant_turn r]) w2)
        as (added & cs & Hh & Hw & Hq & Hrc & Hshape).
      exists (assistant_turn r :: added), (cs2 ++ cs).
      rewrite Hh, Hw, Hw2, <- !app_assoc, queries_app, receives_app, Hq2, Hr2, Hq.
      split; [reflexivity |]. split; [reflexivity |].
      split; [reflexivity |]. split; [assumption |].
      destruct Hshape as [-> | (u & -> & Hctl & Hu & Hend)].
      - destruct (fst (fst (fst _))); now constructor.
      - rewrite Hctl. now constructor. }
    destruct (says_ready r) eqn:Hready.
    + rewrite after_response_ready by assumption. cbv zeta.
      match goal with
      | |- context [_get_user_input human self "" ?shown] =>
          destruct (get_user_input_quiet self shown) as (cs1 & Hw1 & Hq1 & Hr1)
      end.
      cbn [extend calls] in Hw1.
      destruct (Py.among _ affirmative).
      * eexists [assistant_turn r], _. cbn [fst snd extend calls].
        rewrite Hw1, <- !app_assoc. split; [reflexivity |].
        split; [reflexivity |].
        rewrite !queries_app, !receives_app, Hq1, Hr1.
        split; [reflexivity |]. split; [reflexivity |]. now constructor.
      * eapply Hgrow.
        -- cbn [extend calls]. rewrite Hw1, <- !app_assoc. reflexivity.
        -- now rewrite !queries_app, Hq1.
        -- now rewrite !receives_app, Hr1.
    + rewrite after_response_not_ready by assumption.
      eapply Hgrow; [reflexivity | reflexivity | reflexivity].
  - destruct r; [| discriminate]. rewrite after_response_empty.
    eexists [], _. cbn [fst snd extend calls]. rewrite app_nil_r.
    split; [reflexivity |]. split; [reflexivity |].
    split; [reflexivity |]. split; [reflexivity |]. now constructor.
Qed.

Lemma paired_cons_assistant (r : string) (rest : list Turn) :
  paired rest = true -> paired (assistant_turn r :: rest) = true.
Proof.
  destruct rest as [|e rest']; [reflexivity |].
  intros Hrest.
  assert (Hrole : role e = "assistant").
  { cbn [paired] in Hrest. apply andb_true_iff in Hrest as [Hrole _].
    now apply String.eqb_eq in Hrole. }
  change (paired (assistant_turn r :: e :: rest'))
    with (String.eqb "assistant" "assistant"
          && (if String.eqb (role e) "user"
              then paired rest' else paired (e :: rest'))).
  rewrite Hrole. exact Hrest.
Qed.

Lemma paired_iteration (r : string) (ctl : Ctl) (added rest : list Turn) :
  iteration r ctl added -> paired rest = true -> paired (added ++ rest) = true.
Proof.
  intros Hit Hrest. destruct Hit; cbn [app].
  - assumption.
  - now apply paired_cons_assistant.
  - now apply paired_cons_assistant.
  - exact Hrest.
Qed.

(** What a whole run of the loop appends and calls. *)
Lemma loop_outcome (agent : list (list Message)) :
  forall (self : t) (history : list Turn) (w : World),
  let result := loop human agent self history w in
  exists added cs,
    snd (fst result) = history ++ added
    /\ calls (snd result) = calls w ++ cs
    /\ queries cs = user_messages added
    /\ paired added = true
    /\ 1 <= receives cs <= S (length agent).
Proof.
  induction agent as [|messages agent' IH]; intros self history w; cbv zeta.
  - rewrite loop_nil. eexists [], _. cbn [fst snd received extend calls].
    rewrite app_nil_r, <- app_assoc.
    split; [reflexivity |]. split; [reflexivity |].
    split; [reflexivity |]. split; [reflexivity |]. cbn. lia.
  - rewrite loop_cons. cbv zeta.
    destruct (after_response_outcome (text_of_response "" messages) self history
                (received w)) as (added & cs & Hh & Hw & Hq & Hr & Hit).
    cbn [received extend calls] in Hw.
    destruct (fst (fst (fst _))) eqn:Hctl.
    + specialize (IH (snd (fst (fst (after_response human
                        (text_of_response "" messages) self history (received w)))))
                     (snd (fst (after_response human
                        (text_of_response "" messages) self history (received w))))
                     (snd (after_response human
                        (text_of_response "" messages) self history (received w)))).
      cbv zeta in IH.
      destruct IH as (added' & cs' & Hh' & Hw' & Hq' & Hp' & Hr').
      eexists (added ++ added'), _.
      rewrite Hh', Hw', Hh, Hw, <- !app_assoc.
      split; [reflexivity |]. split; [reflexivity |].
      rewrite !queries_app, !receives_app, user_messages_app, Hq, Hq', Hr.
      split; [reflexivity |].
      split; [now apply (paired_iteration _ _ _ _ Hit) |].
      cbn [length]. cbn. lia.
    + eexists added, _. cbn [fst snd]. rewrite Hh, Hw, <- !app_assoc.
      split; [reflexivity |]. split; [reflexivity |].
      rewrite !queries_app, !receives_app, Hq, Hr.
      split; [reflexivity |].
      split; [| cbn; lia].
      rewrite <- (app_nil_r added). now apply (paired_iteration _ _ _ _ Hit).
Qed.

End TurnLoopOutcome.

Section EngineerRun.

Import VibeEngineer.

Variable human : nat -> string.

Lemma extend_id (w : World) : extend w [] = w.
Proof. destruct w. unfold extend. cbn. now rewrite app_nil_r. Qed.

(** [engineer] is its prelude, its loop and its postlude. *)
Lemma engineer_unfold (agent : list (list Message)) (self : t) (w : World) :
  engineer human agent self w =
    let result := loop human agent self [] (extend w (engineer_prelude self)) in
    ({| conversation := snd (fst result);
        session_repo_analysis := repo_analysis (fst (fst result));
        session_feature_request := feature_request (fst (fst result)) |},
     fst (fst result),
     extend (snd result) engineer_postlude).
Proof.
  unfold engineer, mbind, M_bind, call, mret, M_ret. cbv zeta.
  replace {| calls := (calls {| calls := (calls {| calls := (calls {| calls :=
             (calls {| calls := (calls {| calls := (calls w ++ _)%list; asked := _ |}
               ++ _)%list; asked := _ |} ++ _)%list; asked := _ |} ++ _)%list;
             asked := _ |} ++ _)%list; asked := _ |} ++ _)%list; asked := _ |}
    with (extend w (engineer_prelude self))
    by (unfold extend, engineer_prelude, initial_prompt; cbn [calls asked];
        now rewrite <- !app_assoc).
  destruct (loop human agent self [] (extend w (engineer_prelude self)))
    as [[self' history] w'].
  cbn [fst snd]. unfold extend, engineer_postlude. cbn [calls asked].
  now rewrite <- !app_assoc.
Qed.

Lemma moved_on_refl (self : t) : moved_on self self.
Proof. unfold moved_on. repeat split; auto. Qed.

Lemma moved_on_trans (a b c : t) : moved_on a b -> moved_on b c -> moved_on a c.
Proof.
  unfold moved_on.
  intros (Ha & Hf & Hd & Hm & Hr & Hi & Hs) (Ha' & Hf' & Hd' & Hm' & Hr' & Hi' & Hs').
  repeat split; try congruence; try lia.
  intros Hlive. rewrite Hs' by congruence. now apply Hs.
Qed.

Lemma get_user_input_moved_on (self : t) (prompt : string) (w : World) :
  moved_on self (snd (fst (_get_user_input human self prompt w))).
Proof.
  unfold _get_user_input. destruct (demo_mode self) eqn:Hdemo.
  - destruct (demo_responses self !! demo_response_index self); cbn.
    + unfold moved_on, mbind, M_bind, call, mret, M_ret. cbn.
      repeat split; auto; try lia. intros; congruence.
    + apply moved_on_refl.
  - cbn. apply moved_on_refl.
Qed.

Lemma human_turn_moved_on (self : t) (history : list Turn) (w : World) :
  moved_on self (snd (fst (fst (human_turn human self history w)))).
Proof.
  rewrite human_turn_cases. cbv zeta.
  destruct (negb _); [apply get_user_input_moved_on |].
  destruct (Py.among _ _); apply get_user_input_moved_on.
Qed.

Lemma after_response_moved_on (r : string) (self : t) (history : list Turn)
    (w : World) :
  moved_on self (snd (fst (fst (after_response human r self history w)))).
Proof.
  destruct (Py.truthy r) eqn:Hr.
  - destruct (says_ready r) eqn:Hready.
    + rewrite after_response_ready by assumption. cbv zeta.
      destruct (Py.among _ affirmative).
      * apply get_user_input_moved_on.
      * eapply moved_on_trans; [apply get_user_input_moved_on |].
        apply human_turn_moved_on.
    + rewrite after_response_not_ready by assumption.
      apply human_turn_moved_on.
  - destruct r; [| discriminate]. apply moved_on_refl.
Qed.

Lemma loop_moved_on (agent : list (list Message)) :
  forall (self : t) (history : list Turn) (w : World),
  moved_on self (fst (fst (loop human agent self history w))).
Proof.
  induction agent as [|messages agent' IH]; intros self history w.
  - rewrite loop_nil. apply moved_on_refl.
  - rewrite loop_cons. cbv zeta.
    pose proof (after_response_moved_on (text_of_response "" messages) self
                  history (received w)) as Hstep.
    destruct (fst (fst (fst _))).
    + eapply moved_on_trans; [exact Hstep | apply IH].
    + exact Hstep.
Qed.

End EngineerRun.

(** Close a conjunction of equalities and bounds. *)
Ltac settle :=
  repeat split; intros; auto; try discriminate; try lia; try (cbn; lia).

Section DemoRun.

Import VibeEngineer.

Variable human : nat -> string.

(** One request of a demo run on the canned responses of [__init__]: the
    first four answers are messages, every later answer is ["done"]. *)
Lemma get_user_input_canned (self : t) (w : World) :
  demo_mode self = true ->
  demo_responses self = canned ->
  let request := _get_user_input human self "" w in
  let response := fst (fst request) in
  let self' := snd (fst request) in
  demo_mode self' = true
  /\ demo_responses self' = canned
  /\ prompts (calls (snd request)) = prompts (calls w)
  /\ asked (snd request) = asked w
  /\ Py.truthy response = true
  /\ ((Py.among (Py.lower response) ending = false
       /\ demo_response_index self < 4
       /\ demo_response_index self' = S (demo_response_index self))
      \/ (Py.among (Py.lower response) ending = true
          /\ Py.among (Py.lower response) affirmative = true
          /\ demo_response_index self <= demo_response_index self')).
Proof.
  intros Hdemo Hcanned. unfold _get_user_input. rewrite Hdemo, Hcanned.
  destruct (canned !! demo_response_index self) as [r|] eqn:Hlook.
  - pose proof (lookup_lt_Some _ _ _ Hlook) as Hlt.
    change (length canned) with 5 in Hlt.
    unfold mbind, M_bind, call, mret, M_ret.
    cbn [fst snd calls asked advance demo_mode demo_responses demo_response_index].
    rewrite prompts_app.
    split; [assumption |]. split; [assumption |].
    split; [cbn; lia |]. split; [reflexivity |].
    destruct (demo_response_index self) as [|[|[|[|[|n]]]]]; try lia;
      cbn in Hlook; injection Hlook as <-; (split; [reflexivity |]).
    1-4: left; split; [vm_compute; reflexivity | split; lia].
    right. split; [vm_compute; reflexivity |].
    split; [vm_compute; reflexivity | lia].
  - unfold mret, M_ret. cbn [fst snd].
    split; [assumption |]. split; [assumption |].
    split; [reflexivity |]. split; [reflexivity |]. split; [reflexivity |].
    right. split; [vm_compute; reflexivity |].
    split; [vm_compute; reflexivity | lia].
Qed.

Lemma human_turn_canned (self : t) (history : list Turn) (w : World) :
  demo_mode self = true ->
  demo_responses self = canned ->
  let result := human_turn human self history w in
  let self' := snd (fst (fst result)) in
  demo_mode self' = true
  /\ demo_responses self' = canned
  /\ prompts (calls (snd result)) = prompts (calls w)
  /\ asked (snd result) = asked w
  /\ (fst (fst (fst result)) = Continue ->
      demo_response_index self < demo_response_index self' <= 4).
Proof.
  intros Hdemo Hcanned. cbv zeta. rewrite human_turn_cases. cbv zeta.
  destruct (get_user_input_canned self w Hdemo Hcanned)
    as (Hd & Hc & Hp & Ha & Hu & Hcases).
  cbv zeta in Hd, Hc, Hp, Ha, Hu, Hcases. rewrite Hu. cbn [negb].
  destruct Hcases as [(Hend & Hlt & Hidx) | (Hend & _ & Hle)]; rewrite Hend;
    cbn [fst snd extend calls asked].
  - rewrite prompts_app, Hp.
    settle.
  - settle.
Qed.

Lemma after_response_canned (r : string) (self : t) (history : list Turn)
    (w : World) :
  demo_mode self = true ->
  demo_responses self = canned ->
  let result := after_response human r self history w in
  let self' := snd (fst (fst result)) in
  demo_mode self' = true
  /\ demo_responses self' = canned
  /\ prompts (calls (snd result)) = prompts (calls w)
  /\ asked (snd result) = asked w
  /\ (fst (fst (fst result)) = Continue ->
      demo_response_index self < demo_response_index self' <= 4).
Proof.
  intros Hdemo Hcanned. cbv zeta.
  destruct (Py.truthy r) eqn:Hr.
  - destruct (says_ready r) eqn:Hready.
    + rewrite after_response_ready by assumption. cbv zeta.
      match goal with
      | |- context [_get_user_input human self "" ?shown] =>
          destruct (get_user_input_canned self shown Hdemo Hcanned)
            as (Hd & Hc & Hp & Ha & _ & Hcases);
          cbv zeta in Hd, Hc, Hp, Ha, Hcases;
          set (request := _get_user_input human self "" shown) in *
      end.
      assert (Hle : demo_response_index self
                    <= demo_response_index (snd (fst request)))
        by (destruct Hcases as [(_ & _ & ->) | (_ & _ & Hle)]; lia).
      cbn [extend calls asked] in Hp, Ha. rewrite prompts_app in Hp.
      destruct (Py.among _ affirmative).
      * cbn [fst snd extend calls asked]. rewrite prompts_app, Hp.
        settle.
      * match goal with
        | |- context [human_turn human ?s ?h ?w2] =>
            destruct (human_turn_canned s h w2 Hd Hc)
              as (Hd' & Hc' & Hp' & Ha' & Hcont)
        end.
        cbv zeta in Hd', Hc', Hp', Ha', Hcont.
        cbn [extend calls asked] in Hp', Ha'. rewrite prompts_app in Hp'.
        rewrite Hp', Hp. settle; specialize (Hcont ltac:(assumption)); lia.
    + rewrite after_response_not_ready by assumption.
      match goal with
      | |- context [human_turn human ?s ?h ?w2] =>
          destruct (human_turn_canned s h w2 Hdemo Hcanned)
            as (Hd' & Hc' & Hp' & Ha' & Hcont)
      end.
      cbv zeta in Hd', Hc', Hp', Ha', Hcont.
      cbn [extend calls asked] in Hp', Ha'. rewrite prompts_app in Hp'.
      rewrite Hp'. settle; specialize (Hcont ltac:(assumption)); lia.
  - destruct r; [| discriminate]. rewrite after_response_empty.
    cbn [fst snd extend calls asked]. rewrite prompts_app.
    settle.
Qed.

(** A demo run on the canned responses reads at most [5 - cursor] agent
    turns and records at most [4 - cursor] messages of the human, and never
    asks the display for input. *)
Lemma loop_canned (agent : list (list Message)) :
  forall (self : t) (history : list Turn) (w : World),
  demo_mode self = true ->
  demo_responses self = canned ->
  let result := loop human agent self history w in
  receives (calls (snd result))
    <= receives (calls w) + S (4 - demo_response_index self)
  /\ length (user_messages (snd (fst result)))
      <= length (user_messages history) + (4 - demo_response_index self)
  /\ prompts (calls (snd result)) = prompts (calls w)
  /\ asked (snd result) = asked w.
Proof.
  induction agent as [|messages agent' IH]; intros self history w Hdemo Hcanned;
    cbv zeta.
  - rewrite loop_nil. cbn [fst snd received extend calls asked].
    rewrite !receives_app, !prompts_app. settle.
  - rewrite loop_cons. cbv zeta.
    destruct (after_response_canned (text_of_response "" messages) self history
                (received w) Hdemo Hcanned) as (Hd & Hc & Hp & Ha & Hcont).
    destruct (after_response_outcome human (text_of_response "" messages) self
                history (received w)) as (added & cs & Hh & Hw & _ & Hr & Hit).
    cbv zeta in Hd, Hc, Hp, Ha, Hcont.
    cbn [received extend calls asked] in Hp, Ha, Hw.
    rewrite prompts_app in Hp.
    assert (Hrec : receives (calls (snd (after_response human
                     (text_of_response "" messages) self history (received w))))
                   = receives (calls w) + 1)
      by (rewrite Hw, !receives_app, Hr; cbn; lia).
    assert (Hlen : length (user_messages (snd (fst (after_response human
                     (text_of_response "" messages) self history (received w)))))
                   = length (user_messages history) + length (user_messages added))
      by (now rewrite Hh, user_messages_app, length_app).
    destruct (fst (fst (fst _))) eqn:Hctl.
    + specialize (Hcont eq_refl).
      destruct (IH _ (snd (fst (after_response human
                  (text_of_response "" messages) self history (received w))))
                  (snd (after_response human
                  (text_of_response "" messages) self history (received w)))
                  Hd Hc) as (IHr & IHu & IHp & IHa).
      cbv zeta in IHr, IHu, IHp, IHa.
      assert (Hone : length (user_messages added) <= 1)
        by (inversion Hit; cbn; lia).
      rewrite IHp, Hp. settle.
    + cbn [fst snd].
      assert (Hnone : length (user_messages added) = 0)
        by (inversion Hit; reflexivity).
      rewrite Hp. settle.
Qed.

End DemoRun.

Section EngineerProperties.

Import VibeEngineer.

Variable human : nat -> string.

(** X1.  The messages that a run of [engineer] sends to the agent are its
    initial prompt followed by the human messages of the conversation it
    returns, in the same order: nothing is sent that is not recorded and
    nothing is recorded as a human message that was not sent. *)
Theorem X1_engineer_sends_what_it_records (agent : list (list Message))
    (self : t) (w : World) :
  let result := engineer human agent self w in
  exists cs,
    calls (snd result) = calls w ++ cs
    /\ queries cs
       = initial_prompt self :: user_messages (conversation (fst (fst result))).
Proof.
  cbv zeta. rewrite engineer_unfold. cbv zeta. cbn [fst snd conversation].
  destruct (loop_outcome human agent self [] (extend w (engineer_prelude self)))
    as (added & cs & Hh & Hw & Hq & _ & _).
  cbv zeta in Hh, Hw. cbn [app] in Hh. cbn [extend calls] in Hw.
  eexists. cbn [extend calls]. rewrite Hw, Hh, <- !app_assoc.
  split; [reflexivity |].
  rewrite !queries_app, Hq. cbn. now rewrite app_nil_r.
Qed.

(** X2.  The conversation that [engineer] returns is made of agent
    responses, each followed by at most one human message: it never starts
    with a human message and never holds two human messages in a row. *)
Theorem X2_engineer_transcript_paired (agent : list (list Message))
    (self : t) (w : World) :
  paired (conversation (fst (fst (engineer human agent self w)))) = true.
Proof.
  rewrite engineer_unfold. cbv zeta. cbn [fst snd conversation].
  destruct (loop_outcome human agent self [] (extend w (engineer_prelude self)))
    as (added & cs & Hh & _ & _ & Hp & _).
  cbv zeta in Hh. cbn [app] in Hh. now rewrite Hh.
Qed.

(** X3.  [engineer] hands on what it was given: the session it returns
    carries the repository analysis and the feature request of the
    engineer, and the engineer itself is left as it was up to the cursor of
    its canned responses, which only moves forward; in interactive mode it
    is left exactly as it was. *)
Theorem X3_engineer_hands_on_its_inputs (agent : list (list Message))
    (self : t) (w : World) :
  let result := engineer human agent self w in
  session_repo_analysis (fst (fst result)) = repo_analysis self
  /\ session_feature_request (fst (fst result)) = feature_request self
  /\ moved_on self (snd (fst result)).
Proof.
  cbv zeta. rewrite engineer_unfold. cbv zeta.
  cbn [fst snd session_repo_analysis session_feature_request].
  pose proof (loop_moved_on human agent self [] (extend w (engineer_prelude self)))
    as Hmoved.
  destruct Hmoved as (Ha & Hf & Hrest). repeat split; auto; apply Hrest.
Qed.

(** X4.  A demo session ends on its own.  Whatever the agent says and
    however many turns it would take, a run of [engineer] in demo mode
    reads at most five agent turns, records at most four human messages,
    and never asks the display for input. *)
Theorem X4_demo_session_bounded (agent : list (list Message))
    (analysis : RepoAnalysis) (feature : string) (w : World) :
  let result := engineer human agent (__init__ analysis feature true) w in
  receives (calls (snd result)) <= receives (calls w) + 5
  /\ length (user_messages (conversation (fst (fst result)))) <= 4
  /\ prompts (calls (snd result)) = prompts (calls w)
  /\ asked (snd result) = asked w.
Proof.
  cbv zeta. rewrite engineer_unfold. cbv zeta. cbn [fst snd conversation].
  destruct (loop_canned human agent (__init__ analysis feature true) []
              (extend w (engineer_prelude (__init__ analysis feature true)))
              eq_refl eq_refl) as (Hr & Hu & Hp & Ha).
  cbv zeta in Hr, Hu, Hp, Ha.
  cbn [extend calls asked] in Hr, Hp, Ha |- *.
  rewrite !receives_app, !prompts_app in *.
  cbn [__init__ demo_response_index] in Hr, Hu.
  change (receives (engineer_prelude (__init__ analysis feature true))) with 0 in Hr.
  change (prompts (engineer_prelude (__init__ analysis feature true))) with 0 in Hp.
  change (receives engineer_postlude) with 0.
  change (prompts engineer_postlude) with 0.
  cbn in Hu. repeat split; lia.
Qed.

(** X5.  An agent turn that carries no text ends the session at once: the
    human is not asked, nothing is appended to the transcript, nothing is
    sent, and what the agent would say afterwards is not read. *)
Theorem X5_turn_without_text_ends_loop (messages : list Message)
    (agent' : list (list Message)) (self : t) (history : list Turn) (w : World) :
  text_of_response "" messages = "" ->
  loop human (messages :: agent') self history w
    = (self, history,
       extend w [ui_log_activity "Waiting for Claude response..." "⏳";
                 client_receive_response;
                 ui_log_activity "Response length: 0" "📝"]).
Proof.
  intros Hsilent. rewrite loop_cons. cbv zeta. rewrite Hsilent.
  rewrite after_response_empty. cbn [fst snd]. unfold received.
  now rewrite extend_extend.
Qed.

End EngineerProperties.

Lemma X5_witness :
  VibeEngineer.loop declines (no_text :: one_question) live_engineer [] world0
    = (live_engineer, [],
       extend world0 [ui_log_activity "Waiting for Claude response..." "⏳";
                      client_receive_response;
                      ui_log_activity "Response length: 0" "📝"]).
Proof.
  exact (X5_turn_without_text_ends_loop declines no_text one_question
           live_engineer [] world0 eq_refl).
Defined.

(** ** More on strings *)

Section MoreStringFacts.

Local Open Scope string_scope.

Lemma append_cons (c : ascii) (s t : string) :
  String c s ++ t = String c (s ++ t).
Proof. reflexivity. Qed.

Lemma append_empty_r (s : string) : s ++ "" = s.
Proof. induction s as [|c s IH]; [reflexivity |]. now rewrite append_cons, IH. Qed.

Lemma append_assoc (s1 s2 s3 : string) : (s1 ++ s2) ++ s3 = s1 ++ (s2 ++ s3).
Proof.
  induction s1 as [|c s1 IH]; [reflexivity |]. now rewrite !append_cons, IH.
Qed.

Lemma prefix_append (s t : string) : String.prefix s (s ++ t) = true.
Proof.
  induction s as [|c s IH]; [now destruct t |].
  rewrite append_cons. simpl. destruct (ascii_dec c c); [exact IH | congruence].
Qed.

Lemma contains_prefix (sub s : string) :
  String.prefix sub s = true -> Py.contains sub s = true.
Proof. destruct s; simpl; intros ->; reflexivity. Qed.

Lemma contains_here (sub post : string) : Py.contains sub (sub ++ post) = true.
Proof. apply contains_prefix, prefix_append. Qed.

(** [sub in pre + sub + post] *)
Lemma contains_inside (sub pre post : string) :
  Py.contains sub (pre ++ sub ++ post) = true.
Proof.
  induction pre as [|c pre IH]; [exact (contains_here sub post) |].
  rewrite append_cons. simpl. rewrite IH. apply orb_true_r.
Qed.

Lemma count_newlines_append (s1 s2 : string) :
  Py.count_newlines (s1 ++ s2)
    = (Py.count_newlines s1 + Py.count_newlines s2)%nat.
Proof.
  induction s1 as [|c s1 IH]; [reflexivity |].
  rewrite append_cons. simpl. rewrite IH. lia.
Qed.

Lemma count_newlines_replace (s : string) :
  Py.count_newlines (Py.replace_newlines s) = 0.
Proof.
  induction s as [|c s IH]; [reflexivity |].
  simpl. rewrite IH.
  destruct (Ascii.eqb c Py.newline) eqn:Hc; [reflexivity |].
  now rewrite Hc.
Qed.

Lemma concat_empty_cons (x : string) (xs : list string) :
  String.concat "" (x :: xs) = x ++ String.concat "" xs.
Proof.
  destruct xs; [| reflexivity].
  change (x = x ++ ""). now rewrite append_empty_r.
Qed.

Lemma concat_empty_app (xs ys : list string) :
  String.concat "" (xs ++ ys)%list = String.concat "" xs ++ String.concat "" ys.
Proof.
  induction xs as [|x xs IH]; [reflexivity |].
  change ((x :: xs) ++ ys)%list with (x :: (xs ++ ys)%list).
  now rewrite !concat_empty_cons, IH, append_assoc.
Qed.

End MoreStringFacts.

(** ** [RepoExplorer.explore] *)

Section Explore.

Import RepoExplorer.

Lemma explorer_tool_use_local (name : string) (input : gmap string string)
    (w : World) :
  _log_tool_use name input w
    = (tt, extend w (explore_activity (ToolUseBlock name input))).
Proof.
  unfold explore_activity, _log_tool_use.
  repeat (destruct (String.eqb name _)); reflexivity.
Qed.

Lemma explorer_tool_result_local (content : option string) (w : World) :
  _log_tool_result content w
    = (tt, extend w (explore_activity (ToolResultBlock content))).
Proof.
  unfold explore_activity, _log_tool_result.
  destruct (_ <? _)%nat; [reflexivity |].
  destruct (Py.truthy _); [reflexivity |].
  cbn. now rewrite extend_id.
Qed.

Lemma explore_blocks_outcome (blocks : list Block) :
  forall (result_text : string) (w : World),
  explore_blocks result_text blocks w
    = ((result_text ++ String.concat "" (map block_text blocks))%string,
       extend w (flat_map explore_activity blocks)).
Proof.
  induction blocks as [|b blocks IH]; intros result_text w.
  - cbn. now rewrite append_empty_r, extend_id.
  - rewrite map_cons, concat_empty_cons.
    destruct b as [text | name input | content |]; cbn [explore_blocks].
    + rewrite IH. cbn [block_text flat_map explore_activity app].
      now rewrite append_assoc.
    + unfold mbind, M_bind. rewrite explorer_tool_use_local, IH.
      now rewrite extend_extend.
    + unfold mbind, M_bind. rewrite explorer_tool_result_local, IH.
      now rewrite extend_extend.
    + now rewrite IH.
Qed.

Lemma explore_messages_outcome (messages : list Message) :
  forall (result_text : string) (w : World),
  explore_messages result_text messages w
    = ((result_text ++ String.concat "" (map message_text messages))%string,
       extend w (flat_map explore_activity (flat_map message_blocks messages))).
Proof.
  induction messages as [|m messages IH]; intros result_text w.
  - cbn. now rewrite append_empty_r, extend_id.
  - rewrite map_cons, concat_empty_cons.
    destruct m as [blocks | |]; cbn [explore_messages].
    + unfold mbind, M_bind. rewrite explore_blocks_outcome, IH.
      cbn [flat_map message_blocks]. rewrite flat_map_app, extend_extend.
      unfold message_text at 1. cbn [message_blocks].
      now rewrite append_assoc.
    + now rewrite IH.
    + now rewrite IH.
Qed.

Lemma explore_outcome (repo_path : string) (messages : list Message) (w : World) :
  explore repo_path messages w
    = ({| summary := String.concat "" (map message_text messages);
          path := repo_path |},
       extend w (explore_prelude
                 ++ flat_map explore_activity (flat_map message_blocks messages)
                 ++ explore_postlude)).
Proof.
  unfold explore, mbind, M_bind, call.
  rewrite explore_messages_outcome. unfold mret, M_ret.
  unfold extend, explore_prelude, explore_postlude. cbn [calls asked append].
  now rewrite <- !app_assoc.
Qed.

(** Every line that the explorer writes for a block is an activity line. *)
Lemma explore_activity_lines (b : Block) :
  Forall (fun c => is_activity c = true) (explore_activity b).
Proof.
  destruct b as [text | name input | content |]; cbn [explore_activity];
    try constructor.
  - unfold _log_tool_use.
    repeat (destruct (String.eqb name _)); repeat constructor.
  - unfold _log_tool_result.
    destruct (_ <? _)%nat; [repeat constructor |].
    destruct (Py.truthy _); repeat constructor.
Qed.

Lemma activity_is_quiet (cs : list Call) :
  Forall (fun c => is_activity c = true) cs ->
  queries cs = [] /\ receives cs = 0 /\ prompts cs = 0.
Proof.
  induction 1 as [|c cs Hc _ (IHq & IHr & IHp)]; [easy |].
  destruct c; try discriminate. cbn. auto.
Qed.

End Explore.

(** X6.  The summary that [explore] returns is the text of all the text
    blocks of all the assistant messages of the turn, in order, with
    nothing else in it: tool blocks add nothing, and text that comes after
    a [ResultMessage] is included too (unlike in [engineer]).  The path it
    returns is the path it was given. *)
Theorem X6_explore_summary_is_all_text (repo_path : string)
    (messages : list Message) (w : World) :
  fst (RepoExplorer.explore repo_path messages w)
    = {| summary := String.concat "" (map message_text messages);
         path := repo_path |}.
Proof.
  unfold RepoExplorer.explore, mbind, M_bind, call.
  rewrite explore_messages_outcome. reflexivity.
Qed.

(** What the explorer writes for a block is what stands for it. *)
Lemma explore_activity_block_lines (b : Block) :
  block_lines b (explore_activity b).
Proof.
  destruct b as [text | name input | content |]; cbn [explore_activity];
    try constructor.
  - unfold RepoExplorer._log_tool_use.
    destruct (String.eqb name "Read") eqn:HRead;
      [apply String.eqb_eq in HRead; subst name;
       exact (lines_tool_use "Read" input _) |].
    destruct (String.eqb name "Grep") eqn:HGrep;
      [apply String.eqb_eq in HGrep; subst name;
       exact (lines_tool_use "Grep" input _) |].
    destruct (String.eqb name "Glob") eqn:HGlob;
      [apply String.eqb_eq in HGlob; subst name;
       exact (lines_tool_use "Glob" input _) |].
    destruct (String.eqb name "Bash") eqn:HBash;
      [apply String.eqb_eq in HBash; subst name;
       exact (lines_tool_use "Bash" input _) |].
    exact (lines_tool_use name input "...").
  - destruct content as [body |]; [| apply lines_empty_result; now left].
    destruct body as [|c body]; [apply lines_empty_result; now right |].
    unfold RepoExplorer._log_tool_result, RepoExplorer.content_str.
    cbn [Py.truthy].
    destruct (_ <? _)%nat; [now apply lines_tool_result |].
    now apply lines_tool_result.
Qed.

(** X7.  The activity lines that [explore] writes for tool uses and tool
    results stand between its start and completion lines, in the order of
    the blocks in the agent's turn: one line per tool use, which names the
    tool; one line per tool result that holds something and none for one
    that holds nothing; none for any other block. *)
Theorem X7_explore_activity_in_event_order (repo_path : string)
    (messages : list Message) (w : World) :
  exists lines : list (list Call),
    Forall2 block_lines (flat_map message_blocks messages) lines
    /\ calls (snd (RepoExplorer.explore repo_path messages w))
       = calls w ++ explore_prelude ++ concat lines ++ explore_postlude.
Proof.
  exists (map explore_activity (flat_map message_blocks messages)).
  split.
  - induction (flat_map message_blocks messages) as [|b blocks IH];
      constructor; [apply explore_activity_block_lines | exact IH].
  - unfold RepoExplorer.explore, mbind, M_bind, call.
    rewrite explore_messages_outcome. unfold mret, M_ret.
    unfold extend, explore_prelude, explore_postlude. cbn [snd calls asked].
    rewrite <- flat_map_concat_map. now rewrite <- !app_assoc.
Qed.

(** X8.  [explore] is one agent turn and no more: it sends the analysis
    prompt and nothing else, reads the agent once, and never asks the human
    for input, whatever the agent's messages hold. *)
Theorem X8_explore_is_one_agent_turn (repo_path : string)
    (messages : list Message) (w : World) :
  let w' := snd (RepoExplorer.explore repo_path messages w) in
  exists cs,
    calls w' = calls w ++ cs
    /\ queries cs = [RepoExplorer.analysis_prompt]
    /\ receives cs = 1
    /\ prompts cs = 0
    /\ asked w' = asked w.
Proof.
  cbv zeta. rewrite explore_outcome. cbn [snd extend calls asked].
  eexists. split; [reflexivity |].
  assert (Hquiet : Forall (fun c => is_activity c = true)
            (flat_map explore_activity (flat_map message_blocks messages))).
  { apply Forall_flat_map, Forall_forall. intros b _.
    apply explore_activity_lines. }
  apply activity_is_quiet in Hquiet as (Hq & Hr & Hp).
  rewrite !queries_app, !receives_app, !prompts_app, Hq, Hr, Hp.
  repeat split; reflexivity.
Qed.

(** X9.  The response that [engineer] reads from a turn is the text of the
    text blocks of the assistant messages that come before the first
    [ResultMessage]; whatever follows it is ignored. *)
Theorem X9_response_is_text_before_result (messages : list Message) :
  VibeEngineer.text_of_response "" messages
    = String.concat "" (map message_text (before_result messages)).
Proof.
  assert (Hblocks : forall blocks acc,
            VibeEngineer.text_of_blocks acc blocks
              = (acc ++ String.concat "" (map block_text blocks))%string).
  { induction blocks as [|b blocks IH]; intros acc.
    - cbn. now rewrite append_empty_r.
    - rewrite map_cons, concat_empty_cons.
      destruct b; cbn [VibeEngineer.text_of_blocks block_text]; rewrite IH;
        [now rewrite append_assoc | reflexivity ..]. }
  assert (Hmessages : forall acc,
            VibeEngineer.text_of_response acc messages
              = (acc ++ String.concat "" (map message_text (before_result messages)))%string).
  { induction messages as [|m messages IH]; intros acc.
    - cbn. now rewrite append_empty_r.
    - destruct m as [blocks | |];
        cbn [VibeEngineer.text_of_response before_result].
      + rewrite map_cons, concat_empty_cons, IH, Hblocks.
        unfold message_text at 1. cbn [message_blocks].
        now rewrite append_assoc.
      + cbn. now rewrite append_empty_r.
      + rewrite map_cons, concat_empty_cons, IH. reflexivity. }
  apply (Hmessages "").
Qed.

Section ToolLines.

Local Open Scope string_scope.

Lemma count_newlines_digits (d : Decimal.uint) :
  Py.count_newlines (NilEmpty.string_of_uint d) = 0.
Proof. induction d; simpl; auto. Qed.

Lemma count_newlines_str_nat (n : nat) : Py.count_newlines (Py.str_nat n) = 0.
Proof.
  unfold Py.str_nat, NilZero.string_of_uint.
  destruct (Nat.to_uint n) eqn:Hd; try reflexivity;
    rewrite <- Hd; apply count_newlines_digits.
Qed.

(** X10.  The activity line for a [Bash] tool use shows the command whole
    when it has at most 40 characters, and otherwise its first 37
    characters followed by an ellipsis: the command shown never has more
    than 40 characters, counted as Python counts them.  A tool use without
    a [command] shows an empty command. *)
Theorem X10_bash_command_preview (input : gmap string string) (w : World) :
  let command := default "" (input !! "command") in
  exists shown,
    calls (snd (RepoExplorer._log_tool_use "Bash" input w))
      = (calls w ++ [ui_log_activity ("Bash(" ++ shown ++ ")") "🔧"])%list
    /\ Py.len shown <= 40
    /\ (Py.len command <= 40 -> shown = command)
    /\ (40 < Py.len command ->
        shown = Py.take 37 command ++ "..."
        /\ Py.len (Py.take 37 command) = 37
        /\ exists rest, command = Py.take 37 command ++ rest).
Proof.
  intros command. unfold RepoExplorer._log_tool_use.
  change (String.eqb "Bash" "Read") with false.
  change (String.eqb "Bash" "Grep") with false.
  change (String.eqb "Bash" "Glob") with false.
  change (String.eqb "Bash" "Bash") with true. cbv iota. fold command.
  destruct (40 <? Py.len command)%nat eqn:Hlong.
  - apply Nat.ltb_lt in Hlong. eexists. split; [reflexivity |].
    assert (Htake : Py.len (Py.take 37 command) = 37)
      by (rewrite len_take; lia).
    split; [| split; [lia |]].
    + rewrite len_append, Htake. change (Py.len "...") with 3. lia.
    + intros _. split; [reflexivity |]. split; [exact Htake |].
      apply take_prefix.
  - apply Nat.ltb_ge in Hlong. exists command. split; [reflexivity |].
    split; [assumption | split; [reflexivity | lia]].
Qed.

(** X11.  Whatever a tool result holds, the explorer writes at most one
    activity line for it, and that line never contains a newline: the
    result takes one line of the activity log. *)
Theorem X11_tool_result_is_one_line (content : option string) (w : World) :
  let w' := snd (RepoExplorer._log_tool_result content w) in
  w' = w
  \/ exists line,
       calls w' = (calls w ++ [ui_log_activity line "📊"])%list
       /\ Py.count_newlines line = 0.
Proof.
  cbv zeta. unfold RepoExplorer._log_tool_result.
  destruct (_ <? _)%nat.
  - right. eexists. split; [reflexivity |].
    rewrite !count_newlines_append, count_newlines_str_nat. reflexivity.
  - destruct (Py.truthy _); [| now left].
    right. eexists. split; [reflexivity |].
    destruct (_ <? _)%nat;
      rewrite !count_newlines_append, count_newlines_replace; reflexivity.
Qed.

End ToolLines.

(** ** [Crystallizer] *)

Section Crystallize.

Import Crystallizer.

Local Open Scope string_scope.

Lemma prefix_append_l (sub s t : string) :
  String.prefix sub s = true -> String.prefix sub (s ++ t) = true.
Proof.
  revert s. induction sub as [|c sub IH]; intros s; [now destruct s, t |].
  destruct s as [|c' s]; [discriminate |].
  rewrite append_cons. simpl. destruct (ascii_dec c c'); [apply IH | easy].
Qed.

Lemma contains_append_l (sub s t : string) :
  Py.contains sub s = true -> Py.contains sub (s ++ t) = true.
Proof.
  induction s as [|c s IH].
  - simpl. rewrite orb_false_r. intros Hsub.
    apply contains_prefix. destruct sub; [now destruct t | discriminate].
  - rewrite append_cons. simpl.
    intros [Hpre | Hin]%orb_true_iff; apply orb_true_iff.
    + left. now apply (prefix_append_l sub (String c s) t).
    + right. now apply IH.
Qed.

Lemma contains_append_r (sub s t : string) :
  Py.contains sub t = true -> Py.contains sub (s ++ t) = true.
Proof.
  intros Hsub. induction s as [|c s IH]; [exact Hsub |].
  rewrite append_cons. simpl. rewrite IH. apply orb_true_r.
Qed.

Lemma contains_self (s : string) : Py.contains s s = true.
Proof. rewrite <- (append_empty_r s) at 2. apply contains_here. Qed.

(** Joining two non-empty lists of blocks. *)
Lemma concat_app (sep : string) (xs ys : list string) :
  xs <> [] -> ys <> [] ->
  String.concat sep (xs ++ ys)%list
    = String.concat sep xs ++ sep ++ String.concat sep ys.
Proof.
  intros Hxs Hys. induction xs as [|x xs IH]; [congruence |].
  destruct xs as [|x' xs].
  - destruct ys; [congruence | reflexivity].
  - change (String.concat sep ((x :: x' :: xs) ++ ys)%list)
      with (x ++ sep ++ String.concat sep ((x' :: xs) ++ ys)%list).
    rewrite IH by congruence.
    change (String.concat sep (x :: x' :: xs))
      with (x ++ sep ++ String.concat sep (x' :: xs)).
    now rewrite !append_assoc.
Qed.

(** A member of a joined list stands in the result. *)
Lemma contains_concat (sep x : string) (xs : list string) :
  x ∈ xs -> Py.contains x (String.concat sep xs) = true.
Proof.
  induction xs as [|y xs IH]; intros Hin; [now apply elem_of_nil in Hin |].
  apply elem_of_cons in Hin as [-> | Hin].
  - destruct xs; [apply contains_self | apply contains_here].
  - destruct xs as [|y' xs]; [now apply elem_of_nil in Hin |].
    change (String.concat sep (y :: y' :: xs))
      with (y ++ sep ++ String.concat sep (y' :: xs)).
    now apply contains_append_r, contains_append_r, IH.
Qed.

(** X12.  [_format_conversation] joins: the text of a conversation made of
    two non-empty parts is the text of the first part, a blank line, and
    the text of the second part.  So turns are written in conversation
    order, separated by blank lines and by nothing else. *)
Theorem X12_format_conversation_joins (analysis : RepoAnalysis)
    (feature : string) (h1 h2 : list VibeEngineer.Turn) :
  h1 <> [] -> h2 <> [] ->
  _format_conversation (session_of analysis feature (h1 ++ h2)%list)
    = _format_conversation (session_of analysis feature h1)
      ++ nl ++ nl
      ++ _format_conversation (session_of analysis feature h2).
Proof.
  intros H1 H2. unfold _format_conversation, session_of.
  cbn [VibeEngineer.conversation]. rewrite map_app.
  rewrite concat_app.
  - now rewrite !append_assoc.
  - now destruct h1.
  - now destruct h2.
Qed.

(** X13.  The prompt that [crystallize] sends holds the whole session: the
    summary of the repository analysis, the feature request, the output
    path, and, for every turn of the conversation, its block
    [ROLE: content] with the role in capitals. *)
Theorem X13_prompt_holds_whole_session
    (session : VibeEngineer.EngineeringSession) (output_path : string) :
  let prompt := crystallize_prompt session output_path in
  Py.contains (summary (VibeEngineer.session_repo_analysis session)) prompt = true
  /\ Py.contains (VibeEngineer.session_feature_request session) prompt = true
  /\ Py.contains output_path prompt = true
  /\ forall turn, turn ∈ VibeEngineer.conversation session ->
       Py.contains (turn_block turn) prompt = true.
Proof.
  cbv zeta. unfold crystallize_prompt.
  split; [| split; [| split]].
  - do 5 apply contains_append_r. apply contains_here.
  - do 10 apply contains_append_r. apply contains_here.
  - do 19 apply contains_append_r. apply contains_here.
  - intros turn Hin. do 15 apply contains_append_r.
    apply contains_append_l. unfold _format_conversation.
    apply contains_concat. apply list_elem_of_In, in_map_iff.
    exists turn. split; [reflexivity | now apply list_elem_of_In].
Qed.

End Crystallize.

Lemma X12_witness :
  Crystallizer._format_conversation
    (session_of sample_analysis "feature" sample_conversation)
    = ("ASSISTANT: What do you want?" ++ nl ++ nl ++ "USER: A landing page")%string.
Proof.
  exact (X12_format_conversation_joins sample_analysis "feature"
           [assistant_turn "What do you want?"] [user_turn "A landing page"]
           ltac:(discriminate) ltac:(discriminate)).
Defined.

Section CrystallizeRun.

Import Crystallizer.

Lemma crystallizer_tool_use_local (name : string) (input : gmap string string)
    (w : World) :
  _log_tool_use name input w
    = (tt, extend w (crystallize_activity (ToolUseBlock name input))).
Proof.
  unfold crystallize_activity, _log_tool_use.
  destruct (String.eqb name _); reflexivity.
Qed.

Lemma crystallize_blocks_outcome (blocks : list Block) :
  forall (result_text : string) (w : World),
  snd (crystallize_blocks result_text blocks w)
    = extend w (flat_map crystallize_activity blocks).
Proof.
  induction blocks as [|b blocks IH]; intros result_text w.
  - cbn. now rewrite extend_id.
  - destruct b as [text | name input | content |]; cbn [crystallize_blocks].
    + now rewrite IH.
    + unfold mbind, M_bind. rewrite crystallizer_tool_use_local, IH.
      now rewrite extend_extend.
    + unfold mbind, M_bind, _log_tool_result, call. rewrite IH.
      unfold extend. cbn. now rewrite <- app_assoc.
    + now rewrite IH.
Qed.

Lemma crystallize_messages_outcome (messages : list Message) :
  forall (result_text : string) (w : World),
  snd (crystallize_messages result_text messages w)
    = extend w (flat_map crystallize_activity (flat_map message_blocks messages)).
Proof.
  induction messages as [|m messages IH]; intros result_text w.
  - cbn. now rewrite extend_id.
  - destruct m as [blocks | |]; cbn [crystallize_messages].
    + unfold mbind, M_bind.
      pose proof (crystallize_blocks_outcome blocks result_text w) as Hb.
      destruct (crystallize_blocks result_text blocks w) as [text w1].
      cbn [snd] in Hb. subst w1. rewrite IH.
      cbn [flat_map message_blocks]. now rewrite flat_map_app, extend_extend.
    + now rewrite IH.
    + now rewrite IH.
Qed.

(** The lines with the icon of a written file are those of the tool
    results. *)
Lemma written_lines_are_tool_results (blocks : list Block) :
  activity_with_icon written_icon (flat_map crystallize_activity blocks)
    = length (List.filter
                (fun b => match b with ToolResultBlock _ => true | _ => false end)
                blocks).
Proof.
  unfold activity_with_icon.
  induction blocks as [|b blocks IH]; [reflexivity |].
  cbn [flat_map]. rewrite List.filter_app, length_app, IH.
  destruct b as [text | name input | content |]; cbn [List.filter];
    try reflexivity.
  unfold crystallize_activity, _log_tool_use.
  destruct (String.eqb name _); reflexivity.
Qed.

(** X14.  [crystallize] reports success whatever the agent did: it returns
    the output path it was given and ends with the line that the
    specification was written there, for any messages of the agent, even
    none.  It sends its prompt and nothing else, never asks the human, and
    writes one [File written successfully] line for each tool result,
    whatever the result holds. *)
Theorem X14_crystallize_reports_success
    (session : VibeEngineer.EngineeringSession) (output_path : string)
    (messages : list Message) (w : World) :
  let result := crystallize session output_path messages w in
  fst result = output_path
  /\ exists cs,
       calls (snd result)
         = calls w ++ cs
           ++ [ui_update_agent_status "Crystallizer" "Complete";
               ui_log_activity ("SPEC.md written to " ++ output_path)%string
                 completed_icon]
       /\ queries cs = [crystallize_prompt session output_path]
       /\ prompts cs = 0
       /\ activity_with_icon written_icon cs = tool_results messages.
Proof.
  cbv zeta. unfold crystallize, mbind, M_bind, call.
  match goal with
  | |- context [crystallize_messages "" messages ?w0] =>
      pose proof (crystallize_messages_outcome messages "" w0) as Hm;
      destruct (crystallize_messages "" messages w0) as [text w1]
  end.
  cbn [snd] in Hm. subst w1. unfold mret, M_ret. cbn [fst snd extend calls asked].
  split; [reflexivity |].
  exists (crystallize_prelude session output_path
          ++ flat_map crystallize_activity (flat_map message_blocks messages)).
  unfold crystallize_prelude.
  split; [now rewrite <- !app_assoc |].
  assert (Hquiet : Forall (fun c => is_activity c = true)
            (flat_map crystallize_activity (flat_map message_blocks messages))).
  { apply Forall_flat_map, Forall_forall. intros b _.
    destruct b as [text' | name input | content |];
      cbn [crystallize_activity];
      [constructor
      | unfold _log_tool_use; destruct (String.eqb name _); repeat constructor
      | repeat constructor
      | constructor]. }
  apply activity_is_quiet in Hquiet as (Hq & _ & Hp).
  rewrite queries_app, prompts_app, Hq, Hp.
  split; [reflexivity |]. split; [reflexivity |].
  unfold activity_with_icon at 1. rewrite List.filter_app, length_app.
  fold (activity_with_icon written_icon
          (flat_map crystallize_activity (flat_map message_blocks messages))).
  rewrite written_lines_are_tool_results. reflexivity.
Qed.

End CrystallizeRun.

(** ** The widgets of [OverkillApp] *)

Section DisplayProperties.

Import Display.

Variable no_matches : string.

(** X15.  On an app whose widgets are not composed the display operations
    change nothing.  When the app has a screen, [query_one] raises
    [NoMatches], which every operation catches: [update_phase],
    [update_agent_status] and [log_activity] return, and a message handled
    then is lost without a trace (it is not written, not counted, and the
    error line that [handle_add_message] tries to log is lost too).  When
    the app has no screen, as it is built, [query_one] raises
    [ScreenStackError], which no operation catches: each of them raises.
    [prompt_user] ends in the same way, but has armed its slot by then. *)
Theorem X15_display_without_widgets (d : t)
    (phase name status' message icon question : string)
    (request : AddMessageRequest) :
  OverkillApp.mounted (app d) = false ->
  let ended := if has_screen d then Returns else Raises in
  update_phase phase d = (ended, d)
  /\ update_agent_status name status' d = (ended, d)
  /\ log_activity message icon d = (ended, d)
  /\ handle_add_message no_matches request d = (ended, d)
  /\ fst (prompt_user question d) = ended
  /\ OverkillApp._input_event (app (snd (prompt_user question d)))
     = Some (length (OverkillApp.events (app d))).
Proof.
  intros Hmounted ended. subst ended.
  unfold update_phase, update_agent_status, handle_add_message, log_activity,
    prompt_user, query_one.
  rewrite Hmounted. destruct (has_screen d); repeat split; reflexivity.
Qed.

Lemma step_consistent (op : Op) (d : t) :
  display_consistent d -> display_consistent (step no_matches op d).
Proof.
  intros [Hstream Hcount]. unfold display_consistent, step.
  destruct op; cbn [perform snd]; try (split; assumption).
  - unfold update_phase. destruct (query_one d); now split.
  - unfold update_agent_status. destruct (query_one d); now split.
  - unfold log_activity. destruct (query_one d); now split.
  - unfold deliver. destruct (posted d) as [|message rest]; [now split |].
    unfold handle_add_message, log_activity, query_one.
    cbn [app messages_log has_screen].
    destruct (OverkillApp.mounted _);
      [| destruct (has_screen d); now split].
    rewrite Hstream. cbn [Py.truthy]. rewrite !andb_false_r.
    cbn [snd app messages_log OverkillApp._last_streaming_text
         OverkillApp._message_counter].
    split; [reflexivity | rewrite length_app; cbn [length]; lia].
  - cbn. now split.
  - cbn. unfold OverkillApp.on_input_submitted.
    destruct (OverkillApp._input_event _); now split.
Qed.

(** X16.  Whatever is done to the app from its start, no streamed text is
    ever held back and the message counter is the number of lines of the
    conversation log: the branch of [handle_add_message] that accumulates
    streamed text is never taken. *)
Theorem X16_display_stays_consistent (ops : list Op) :
  display_consistent (run no_matches ops init).
Proof.
  unfold run.
  assert (Hany : forall d, display_consistent d ->
                   display_consistent (fold_left (fun d op => step no_matches op d) ops d)).
  { induction ops as [|op ops IH]; intros d Hd; [exact Hd |].
    cbn [fold_left]. apply IH. now apply step_consistent. }
  apply Hany. split; reflexivity.
Qed.

(** Delivering to a mounted app that holds no streamed text back writes
    the oldest posted message. *)
Lemma deliver_mounted (d : t) (message : AddMessageRequest)
    (rest : list AddMessageRequest) :
  posted d = message :: rest ->
  OverkillApp.mounted (app d) = true ->
  OverkillApp._last_streaming_text (app d) = "" ->
  let d' := snd (deliver no_matches d) in
  fst (deliver no_matches d) = Returns
  /\ messages_log d' = messages_log d ++ [formatted message]
  /\ posted d' = rest
  /\ OverkillApp.mounted (app d') = true
  /\ OverkillApp._last_streaming_text (app d') = "".
Proof.
  intros Hposted Hmounted Hstream. cbv zeta.
  unfold deliver. rewrite Hposted.
  unfold handle_add_message, query_one. cbn [app]. rewrite Hmounted, Hstream.
  cbn [Py.truthy]. rewrite !andb_false_r. cbn. auto.
Qed.

(** X17.  On a mounted app that holds no streamed text back, the posted
    messages reach the conversation log in the order they were added, one
    line each, with the prefix of their role ([Agent: ] for the role
    [agent] and [You: ] for every other role), whether or not they are
    marked as streaming. *)
Theorem X17_messages_shown_in_order (d : t) :
  OverkillApp.mounted (app d) = true ->
  OverkillApp._last_streaming_text (app d) = "" ->
  let shown := run no_matches (replicate (length (posted d)) op_deliver) d in
  messages_log shown = messages_log d ++ map formatted (posted d)
  /\ posted shown = [].
Proof.
  remember (posted d) as queue eqn:Hqueue. revert d Hqueue.
  induction queue as [|message rest IH]; intros d Hqueue Hmounted Hstream.
  - cbn. now rewrite app_nil_r.
  - cbn [length replicate run fold_left].
    change (step no_matches op_deliver d) with (snd (deliver no_matches d)).
    destruct (deliver_mounted d message rest (eq_sym Hqueue) Hmounted Hstream)
      as (_ & Hlog & Hposted & Hmounted' & Hstream').
    cbv zeta in Hlog, Hposted, Hmounted', Hstream'.
    specialize (IH (snd (deliver no_matches d)) (eq_sym Hposted)
                  Hmounted' Hstream').
    cbv zeta in IH. unfold run in IH.
    destruct IH as [IHlog IHposted]. rewrite IHlog, IHposted, Hlog.
    cbn [map]. now rewrite <- app_assoc.
Qed.

End DisplayProperties.

Lemma X15_witness :
  Display.handle_add_message "no match"
      {| Display.role := "agent"; Display.content := "hello";
         Display.streaming := false |}
      Display.init
    = (Display.Raises, Display.init)
  /\ Display.handle_add_message "no match"
       {| Display.role := "agent"; Display.content := "hello";
          Display.streaming := false |}
       (Display.start Display.init)
     = (Display.Returns, Display.start Display.init).
Proof.
  split.
  - exact (proj1 (proj2 (proj2 (proj2
      (X15_display_without_widgets "no match" Display.init "engineer"
         "VibeEngineer" "Thinking..." "started" "i" ""
         {| Display.role := "agent"; Display.content := "hello";
            Display.streaming := false |} eq_refl))))).
  - exact (proj1 (proj2 (proj2 (proj2
      (X15_display_without_widgets "no match" (Display.start Display.init)
         "engineer" "VibeEngineer" "Thinking..." "started" "i" ""
         {| Display.role := "agent"; Display.content := "hello";
            Display.streaming := false |} eq_refl))))).
Defined.

Lemma X17_witness :
  Display.messages_log
    (Display.run "no match" [Display.op_deliver; Display.op_deliver]
       sample_display)
    = [[("You: ", "bold cyan"); ("A landing page", "")];
       [("Agent: ", "bold magenta"); ("Which stack?", "")]].
Proof.
  exact (proj1 (X17_messages_shown_in_order "no match" sample_display
                  eq_refl eq_refl)).
Defined.

(** ** The input slot, once more *)

(** X18.  One [prompt_user] returns the line submitted while it waits.  If
    two lines are submitted before it resumes, it returns the second and
    the first is lost.  A line submitted after it has returned, or when no
    [prompt_user] is waiting, is dropped: the app is left as it is. *)
Theorem X18_prompt_returns_last_submitted (question first second late : string)
    (app : OverkillApp.t) :
  let started := snd (OverkillApp.prompt_user_begin question app) in
  let answered := OverkillApp.on_input_submitted first started in
  fst (OverkillApp.prompt_user_end answered) = first
  /\ fst (OverkillApp.prompt_user_end
            (OverkillApp.on_input_submitted second answered)) = second
  /\ OverkillApp.on_input_submitted late (snd (OverkillApp.prompt_user_end answered))
     = snd (OverkillApp.prompt_user_end answered)
  /\ (OverkillApp._input_event app = None ->
      OverkillApp.on_input_submitted late app = app).
Proof.
  cbv zeta. split; [reflexivity |]. split; [reflexivity |].
  split; [reflexivity |].
  intros Hnone. unfold OverkillApp.on_input_submitted. now rewrite Hnone.
Qed.

(** ** [PhaseIndicator.render] *)

(** X19.  The phase indicator marks the phases by their position: for the
    [i]-th of the three phases as current phase, the [i] phases before it
    are shown as completed, the phase itself is highlighted, and the
    phases after it are shown as pending.  For any other value of the
    current phase (which [update_phase] would store unchecked) rendering
    fails. *)
Theorem X19_phase_indicator_by_position :
  (forall (i : nat) (phase : string),
     PhaseIndicator.phases !! i = Some phase ->
     exists text,
       PhaseIndicator.render phase = Some text
       /\ phase_styles text
          = replicate i "dim green" ++ ["bold reverse green"]
            ++ replicate (length PhaseIndicator.phases - S i) "dim")
  /\ (forall phase : string,
        phase ∉ PhaseIndicator.phases -> PhaseIndicator.render phase = None).
Proof.
  split.
  - intros i phase Hphase.
    destruct i as [|[|[|i]]]; cbn in Hphase; try discriminate;
      injection Hphase as <-; eexists; (split; [vm_compute; reflexivity |]);
      reflexivity.
  - intros phase Hnot.
    assert (Hexplore : String.eqb "explore" phase = false).
    { apply String.eqb_neq. intros <-. apply Hnot. repeat constructor. }
    assert (Hengineer : String.eqb "engineer" phase = false).
    { apply String.eqb_neq. intros <-. apply Hnot. repeat constructor. }
    assert (Hcrystallize : String.eqb "crystallize" phase = false).
    { apply String.eqb_neq. intros <-. apply Hnot. repeat constructor. }
    unfold PhaseIndicator.render, PhaseIndicator.phases.
    cbn [PhaseIndicator.render_from].
    change (PhaseIndicator.PHASE_LABELS !! "explore") with (Some "🔍 EXPLORE").
    cbn [mbind option_bind]. rewrite Hexplore.
    cbn [PhaseIndicator.index PhaseIndicator.phases].
    rewrite Hexplore, Hengineer, Hcrystallize. reflexivity.
Qed.

(** ** [run_pipeline], its other ways out *)

Section PipelineProperties.

Import Main.

Context {Analysis Session : Type}.
Variable mkdtemp : gset Path -> Path.
Variable git_clone : string -> Path -> Ext unit.
Variable resolve : string -> Path.
Variable explore : Path -> Ext Analysis.
Variable engineer : Analysis -> string -> bool -> Ext Session.
Variable crystallize : Session -> Path -> Ext string.

Abbreviation run_pipeline' :=
  (run_pipeline Analysis Session mkdtemp git_clone resolve explore engineer
     crystallize).

Ltac enter_pipeline :=
  unfold run_pipeline, pipeline_body;
  unfold mbind, P_bind, mret, P_ret, log_activity, await, set_repo_path,
    set_cleanup, set_outside, path_exists, return_;
  cbn [outside cleanup repo_path fst snd].

(** X20.  For a repository argument that is not a URL and whose resolved
    path does not exist, [run_pipeline] runs no phase: it writes the one
    line [Error: Path does not exist: ...], raises nothing and leaves the
    file system as it is. *)
Theorem X20_missing_repository_runs_nothing (args : Args) (o : Outside) :
  Py.startswith_any (repo args) ["http://"; "https://"; "git@"] = false ->
  resolve (repo args) ∉ fs o ->
  run_pipeline' args o
    = (None,
       log ("Error: Path does not exist: " ++ str_path (resolve (repo args)))%string
         "❌" o).
Proof.
  intros Hurl Hmissing. enter_pipeline. rewrite Hurl.
  cbn [outside cleanup repo_path fst snd].
  rewrite bool_decide_eq_false_2 by assumption.
  reflexivity.
Qed.


(** X22.  When the exploration of a local repository raises an
    [Exception], the run ends there: the error is written as one line
    [Error: ...], nothing is raised, nothing is removed, and neither the
    engineering nor the crystallizing phase is run. *)
Theorem X22_failed_exploration_ends_run (args : Args) (o : Outside) (e : Exn) :
  Py.startswith_any (repo args) ["http://"; "https://"; "git@"] = false ->
  resolve (repo args) ∈ fs o ->
  fst (explore (resolve (repo args)) o) = inr e ->
  is_Exception e = true ->
  run_pipeline' args o
    = (None,
       log ("Error: " ++ str_exn e)%string "❌"
         (snd (explore (resolve (repo args)) o))).
Proof.
  intros Hurl Hexists Hfails Hexn. enter_pipeline. rewrite Hurl.
  cbn [outside cleanup repo_path fst snd].
  rewrite bool_decide_eq_true_2 by assumption.
  cbn [outside cleanup repo_path fst snd].
  destruct (explore (resolve (repo args)) o) as [[a | e'] o1];
    cbn [fst snd] in Hfails |- *; [discriminate |].
  injection Hfails as ->. rewrite Hexn. reflexivity.
Qed.

(** X23.  [run_pipeline] removes nothing of a local repository: when the
    repository argument is not a URL and the three phases leave the file
    system as they find it, the file system is the same after the run as
    before it, however the phases end. *)
Theorem X23_local_repository_is_kept (args : Args) (o : Outside) :
  Py.startswith_any (repo args) ["http://"; "https://"; "git@"] = false ->
  (forall p o', fs (snd (explore p o')) = fs o') ->
  (forall a f d o', fs (snd (engineer a f d o')) = fs o') ->
  (forall s p o', fs (snd (crystallize s p o')) = fs o') ->
  fs (snd (run_pipeline' args o)) = fs o.
Proof.
  intros Hurl Hexplore Hengineer Hcrystallize. enter_pipeline. rewrite Hurl.
  cbn [outside cleanup repo_path fst snd].
  destruct (bool_decide _); [| reflexivity].
  cbn [outside cleanup repo_path fst snd].
  pose proof (Hexplore (resolve (repo args)) o) as H1.
  destruct (explore (resolve (repo args)) o) as [[analysis | e] o1];
    cbn [fst snd outside cleanup repo_path] in H1 |- *.
  - pose proof (Hengineer analysis (feature args) (demo args) o1) as H2.
    destruct (engineer analysis (feature args) (demo args) o1)
      as [[session | e] o2]; cbn [fst snd outside cleanup repo_path] in H2 |- *.
    + pose proof (Hcrystallize session (resolve (output args)) o2) as H3.
      destruct (crystallize session (resolve (output args)) o2)
        as [[spec_path | e] o3]; cbn [fst snd outside cleanup repo_path] in H3 |- *.
      * cbn. congruence.
      * destruct (is_Exception e); cbn; congruence.
    + destruct (is_Exception e); cbn; congruence.
  - destruct (is_Exception e); cbn; congruence.
Qed.

(** X24.  When [git clone] fails with a [CalledProcessError], the run ends
    with the one line [Error: Error cloning repo: <stderr>], raises
    nothing and runs no phase; and it removes nothing: the directory that
    [mkdtemp] made is still there if the failed clone left it. *)
Theorem X24_failed_clone_leaves_directory (args : Args) (o : Outside)
    (stderr : string) :
  let cloning := log ("Cloning " ++ repo args ++ "...")%string "📥" o in
  let temp_dir := mkdtemp (fs cloning) in
  let staged := {| fs := {[temp_dir]} ∪ fs cloning; ui := ui cloning |} in
  Py.startswith_any (repo args) ["http://"; "https://"; "git@"] = true ->
  fst (git_clone (repo args) temp_dir staged) = inr (CalledProcessError stderr) ->
  run_pipeline' args o
    = (None,
       log ("Error: Error cloning repo: " ++ stderr)%string "❌"
         (snd (git_clone (repo args) temp_dir staged)))
  /\ (temp_dir ∈ fs (snd (git_clone (repo args) temp_dir staged)) ->
      temp_dir ∈ fs (snd (run_pipeline' args o))).
Proof.
  intros cloning temp_dir staged Hurl Hfails.
  assert (Hrun : run_pipeline' args o
            = (None,
               log ("Error: Error cloning repo: " ++ stderr)%string "❌"
                 (snd (git_clone (repo args) temp_dir staged)))).
  { enter_pipeline. rewrite Hurl.
    cbn [outside cleanup repo_path fst snd]. unfold clone_repo.
    fold cloning. fold temp_dir. fold staged.
    destruct (git_clone (repo args) temp_dir staged) as [[u | e] o1];
      cbn [fst snd] in Hfails |- *; [discriminate |].
    injection Hfails as ->. reflexivity. }
  split; [exact Hrun |].
  intros Hleft. rewrite Hrun. exact Hleft.
Qed.

End PipelineProperties.

Lemma X20_witness :
  Main.run_pipeline unit unit (fun _ => sample_tmp) sample_git_clone
      (fun s => [s]) quiet_explore quiet_engineer quiet_crystallize
      local_args without_repo
    = (None,
       Main.log "Error: Path does not exist: repo" "❌" without_repo).
Proof.
  refine (X20_missing_repository_runs_nothing (fun _ => sample_tmp)
            sample_git_clone (fun s => [s]) quiet_explore quiet_engineer
            quiet_crystallize local_args without_repo eq_refl _).
  cbn. set_solver.
Defined.


Lemma X22_witness :
  Main.run_pipeline unit unit (fun _ => sample_tmp) sample_git_clone
      (fun s => [s]) sample_explore quiet_engineer quiet_crystallize
      local_args with_repo
    = (None, Main.log "Error: session failed" "❌" with_repo).
Proof.
  refine (X22_failed_exploration_ends_run (fun _ => sample_tmp)
            sample_git_clone (fun s => [s]) sample_explore quiet_engineer
            quiet_crystallize local_args with_repo
            (Main.OtherException "session failed") eq_refl _ eq_refl eq_refl).
  cbn. set_solver.
Defined.

Lemma X23_witness :
  Main.fs
    (snd (Main.run_pipeline unit unit (fun _ => sample_tmp) sample_git_clone
            (fun s => [s]) quiet_explore quiet_engineer quiet_crystallize
            local_args with_repo))
    = Main.fs with_repo.
Proof.
  exact (X23_local_repository_is_kept (fun _ => sample_tmp) sample_git_clone
           (fun s => [s]) quiet_explore quiet_engineer quiet_crystallize
           local_args with_repo eq_refl
           (fun _ _ => eq_refl) (fun _ _ _ _ => eq_refl) (fun _ _ _ => eq_refl)).
Defined.

Lemma X24_witness :
  Main.run_pipeline unit unit (fun _ => sample_tmp) failing_git_clone
      (fun s => [s]) quiet_explore quiet_engineer quiet_crystallize
      sample_args sample_outside
    = (None,
       Main.log "Error: Error cloning repo: fatal: repository not found" "❌"
         {| Main.fs := {[sample_tmp]} ∪ Main.fs sample_outside;
            Main.ui :=
              [ui_log_activity "Cloning https://github.com/user/repo..." "📥"] |}).
Proof.
  exact (proj1
    (X24_failed_clone_leaves_directory (fun _ => sample_tmp) failing_git_clone
       (fun s => [s]) quiet_explore quiet_engineer quiet_crystallize
       sample_args sample_outside "fatal: repository not found"
       eq_refl eq_refl)).
Defined.

(** ** A whole run *)

Section PhaseUpdates.

Import VibeEngineer.

Variable human : nat -> string.

Lemma phase_updates_app (cs1 cs2 : list Call) :
  phase_updates (cs1 ++ cs2) = phase_updates cs1 ++ phase_updates cs2.
Proof. apply omap_app. Qed.

Lemma get_user_input_phase (self : t) (w : World) :
  phase_updates (calls (snd (_get_user_input human self "" w)))
    = phase_updates (calls w).
Proof.
  destruct (get_user_input_calls human self w) as (cs & Hw & Hcs).
  rewrite Hw. cbn [calls]. rewrite phase_updates_app.
  destruct Hcs as [-> | [-> | ->]]; cbn; now rewrite app_nil_r.
Qed.

Lemma human_turn_phase (self : t) (history : list Turn) (w : World) :
  phase_updates (calls (snd (human_turn human self history w)))
    = phase_updates (calls w).
Proof.
  rewrite human_turn_cases. cbv zeta.
  destruct (negb _); [apply get_user_input_phase |].
  destruct (Py.among _ _); cbn [snd extend calls];
    rewrite ?phase_updates_app, get_user_input_phase; cbn;
    now rewrite ?app_nil_r.
Qed.

Lemma after_response_phase (r : string) (self : t) (history : list Turn)
    (w : World) :
  phase_updates (calls (snd (after_response human r self history w)))
    = phase_updates (calls w).
Proof.
  destruct (Py.truthy r) eqn:Hr.
  - destruct (says_ready r) eqn:Hready.
    + rewrite after_response_ready by assumption. cbv zeta.
      destruct (Py.among _ affirmative); rewrite ?human_turn_phase;
        cbn [snd extend calls];
        rewrite !phase_updates_app, get_user_input_phase;
        cbn [extend calls]; rewrite phase_updates_app; cbn;
        now rewrite !app_nil_r.
    + rewrite after_response_not_ready by assumption.
      rewrite human_turn_phase. cbn [extend calls].
      rewrite phase_updates_app. cbn. now rewrite app_nil_r.
  - destruct r; [| discriminate]. rewrite after_response_empty.
    cbn [snd extend calls]. rewrite phase_updates_app. cbn.
    now rewrite app_nil_r.
Qed.

Lemma loop_phase (agent : list (list Message)) :
  forall (self : t) (history : list Turn) (w : World),
  phase_updates (calls (snd (loop human agent self history w)))
    = phase_updates (calls w).
Proof.
  induction agent as [|messages agent' IH]; intros self history w.
  - rewrite loop_nil. cbn [snd received extend calls].
    rewrite !phase_updates_app. cbn. now rewrite !app_nil_r.
  - rewrite loop_cons. cbv zeta.
    pose proof (after_response_phase (text_of_response "" messages) self history
                  (received w)) as Hstep.
    cbn [received extend calls] in Hstep.
    rewrite phase_updates_app in Hstep. cbn in Hstep.
    rewrite app_nil_r in Hstep.
    destruct (fst (fst (fst _))); [rewrite IH |]; exact Hstep.
Qed.

End PhaseUpdates.

Section FullRun.

Variable human : nat -> string.
Variable exploring : list Message.
Variable engineering : list (list Message).
Variable crystallizing : list Message.
Variable mkdtemp : gset Main.Path -> Main.Path.
Variable git_clone : string -> Main.Path -> Main.Ext unit.
Variable resolve : string -> Main.Path.

Lemma crystallize_outcome (session : VibeEngineer.EngineeringSession)
    (output_path : string) (messages : list Message) (w : World) :
  Crystallizer.crystallize session output_path messages w
    = (output_path,
       extend w (crystallize_prelude session output_path
                 ++ flat_map crystallize_activity (flat_map message_blocks messages)
                 ++ [ui_update_agent_status "Crystallizer" "Complete";
                     ui_log_activity ("SPEC.md written to " ++ output_path)%string
                       completed_icon])).
Proof.
  unfold Crystallizer.crystallize, mbind, M_bind, call.
  match goal with
  | |- context [Crystallizer.crystallize_messages "" messages ?w0] =>
      pose proof (crystallize_messages_outcome messages "" w0) as Hm;
      destruct (Crystallizer.crystallize_messages "" messages w0) as [text w1]
  end.
  cbn [snd] in Hm. subst w1. unfold mret, M_ret, extend, crystallize_prelude.
  cbn [calls asked]. now rewrite <- !app_assoc.
Qed.

(** What [engineer] returns and calls, for an engineer as [__init__]
    builds it. *)
Lemma engineer_session_outcome (analysis : RepoAnalysis) (feature : string)
    (demo : bool) (w : World) :
  let self := VibeEngineer.__init__ analysis feature demo in
  let result := VibeEngineer.engineer human engineering self w in
  exists h cs,
    fst (fst result) = session_of analysis feature h
    /\ calls (snd result)
       = calls w ++ engineer_prelude self ++ cs ++ engineer_postlude
    /\ paired h = true
    /\ phase_updates cs = []
    /\ queries cs = user_messages h.
Proof.
  cbv zeta. rewrite engineer_unfold. cbv zeta.
  remember (VibeEngineer.__init__ analysis feature demo) as self eqn:Hself.
  remember (extend w (engineer_prelude self)) as w0 eqn:Hw0.
  destruct (loop_outcome human engineering self [] w0)
    as (h & cs & Hh & Hw & Hq & Hp & _).
  pose proof (loop_moved_on human engineering self [] w0) as (Ha & Hf & _).
  pose proof (loop_phase human engineering self [] w0) as Hphase.
  cbv zeta in Hh, Hw. cbn [app] in Hh.
  exists h, cs. cbn [fst snd extend calls]. rewrite Hh, Ha, Hf, Hw.
  split; [now rewrite Hself |].
  split; [rewrite Hw0; cbn [extend calls]; now rewrite <- !app_assoc |].
  split; [assumption |]. split; [| assumption].
  rewrite Hw, phase_updates_app in Hphase.
  rewrite <- (app_nil_r (phase_updates (calls w0))) in Hphase at 2.
  now apply app_inv_head in Hphase.
Qed.

(** A run on a local repository that exists, with sessions that deliver
    their messages: what it returns and what it calls on the display. *)
Lemma full_run_outcome (args : Main.Args) (o : Main.Outside) :
  Py.startswith_any (Main.repo args) ["http://"; "https://"; "git@"] = false ->
  resolve (Main.repo args) ∈ Main.fs o ->
  let analysis :=
    {| summary := String.concat "" (map message_text exploring);
       path := Main.str_path (resolve (Main.repo args)) |} in
  let self := VibeEngineer.__init__ analysis (Main.feature args) (Main.demo args) in
  let output_path := Main.str_path (resolve (Main.output args)) in
  exists h cs,
    paired h = true
    /\ phase_updates cs = []
    /\ queries cs = user_messages h
    /\ Overkill.run_pipeline human exploring engineering crystallizing
         mkdtemp git_clone resolve args o
       = (None,
          {| Main.fs := Main.fs o;
             Main.ui :=
               Main.ui o
               ++ (explore_prelude
                   ++ flat_map explore_activity (flat_map message_blocks exploring)
                   ++ explore_postlude)
               ++ (engineer_prelude self ++ cs ++ engineer_postlude)
               ++ (crystallize_prelude
                     (session_of analysis (Main.feature args) h) output_path
                   ++ flat_map crystallize_activity
                        (flat_map message_blocks crystallizing)
                   ++ [ui_update_agent_status "Crystallizer" "Complete";
                       ui_log_activity ("SPEC.md written to " ++ output_path)%string
                         completed_icon])
               ++ [ui_log_activity ("SPEC.md generated at: " ++ output_path)%string "🎉";
                   ui_log_activity "Complete! Press Ctrl+C to exit." "✅"] |}).
Proof.
  intros Hurl Hexists analysis self output_path. subst self.
  unfold Overkill.run_pipeline, Main.run_pipeline, Main.pipeline_body.
  unfold mbind, Main.P_bind, mret, Main.P_ret, Main.log_activity, Main.await,
    Main.set_repo_path, Main.set_cleanup, Main.set_outside, Main.path_exists,
    Main.return_.
  cbn [Main.outside Main.cleanup Main.repo_path fst snd].
  rewrite Hurl. cbn [Main.outside Main.cleanup Main.repo_path fst snd].
  rewrite bool_decide_eq_true_2 by assumption.
  cbn [Main.outside Main.cleanup Main.repo_path fst snd].
  unfold Overkill.explore at 1, Overkill.on_display. rewrite explore_outcome.
  cbn [Main.outside Main.cleanup Main.repo_path fst snd Main.fs Main.ui extend calls].
  fold analysis.
  unfold Overkill.engineer at 1, Overkill.on_display.
  match goal with
  | |- context [VibeEngineer.engineer human engineering _ ?w0] =>
      destruct (engineer_session_outcome analysis (Main.feature args)
                  (Main.demo args) w0) as (h & cs & Hsession & Hcalls & Hp & Hph & Hq);
      cbv zeta in Hsession, Hcalls;
      destruct (VibeEngineer.engineer human engineering
                  (VibeEngineer.__init__ analysis (Main.feature args)
                     (Main.demo args)) w0)
        as [[session self'] w1]
  end.
  cbv zeta in Hsession, Hcalls. cbn [fst snd calls] in Hsession, Hcalls.
  subst session.
  exists h, cs. split; [assumption |]. split; [assumption |].
  split; [assumption |].
  cbn [Main.outside Main.cleanup Main.repo_path fst snd Main.fs Main.ui].
  unfold Overkill.crystallize at 1, Overkill.on_display.
  rewrite crystallize_outcome. fold output_path.
  cbn [Main.outside Main.cleanup Main.repo_path fst snd Main.fs Main.ui extend calls].
  unfold Main.pipeline_finally, Main.log.
  cbn [Main.outside Main.cleanup Main.repo_path fst snd Main.fs Main.ui].
  rewrite Hcalls. cbn [Main.ui Main.fs]. rewrite <- !app_assoc. reflexivity.
Qed.


Lemma explore_activity_quiet (blocks : list Block) :
  Forall (fun c => is_activity c = true) (flat_map explore_activity blocks).
Proof.
  apply Forall_flat_map, Forall_forall. intros b _. apply explore_activity_lines.
Qed.

Lemma crystallize_activity_quiet (blocks : list Block) :
  Forall (fun c => is_activity c = true) (flat_map crystallize_activity blocks).
Proof.
  apply Forall_flat_map, Forall_forall. intros b _.
  destruct b as [text | name input | content |]; cbn [crystallize_activity];
    [constructor
    | unfold Crystallizer._log_tool_use; destruct (String.eqb name _);
      repeat constructor
    | repeat constructor
    | constructor].
Qed.


(** X26. On such a run the agents are sent, in this order: the analysis
    prompt; the engineer's first prompt, which holds the summary that the
    exploration returned; the human's messages of the transcript; and the
    crystallizer's prompt, built from the session that holds this
    transcript and from the resolved output path. *)
Theorem X26_run_hands_results_on (args : Main.Args) (o : Main.Outside) :
  Py.startswith_any (Main.repo args) ["http://"; "https://"; "git@"] = false ->
  resolve (Main.repo args) ∈ Main.fs o ->
  let analysis :=
    {| summary := String.concat "" (map message_text exploring);
       path := Main.str_path (resolve (Main.repo args)) |} in
  let self := VibeEngineer.__init__ analysis (Main.feature args) (Main.demo args) in
  let output_path := Main.str_path (resolve (Main.output args)) in
  let result :=
    Overkill.run_pipeline human exploring engineering crystallizing
      mkdtemp git_clone resolve args o in
  exists h cs,
    paired h = true
    /\ Main.ui (snd result) = Main.ui o ++ cs
    /\ queries cs
       = RepoExplorer.analysis_prompt
         :: initial_prompt self
         :: user_messages h
            ++ [Crystallizer.crystallize_prompt
                  (session_of analysis (Main.feature args) h) output_path].
Proof.
  intros Hurl Hexists analysis self output_path result. subst result.
  destruct (full_run_outcome args o Hurl Hexists) as (h & cs & Hp & _ & Hq & Hrun).
  cbv zeta in Hrun. fold analysis self output_path in Hrun.
  rewrite Hrun. cbn [fst snd Main.fs Main.ui].
  exists h. eexists. split; [assumption |]. split; [reflexivity |].
  pose proof (activity_is_quiet _
                (explore_activity_quiet (flat_map message_blocks exploring)))
    as (He & _).
  pose proof (activity_is_quiet _
                (crystallize_activity_quiet (flat_map message_blocks crystallizing)))
    as (Hc & _).
  rewrite !queries_app, He, Hc, Hq.
  change (queries explore_prelude) with [RepoExplorer.analysis_prompt].
  change (queries (engineer_prelude self)) with [initial_prompt self].
  change (queries (crystallize_prelude (session_of analysis (Main.feature args) h)
                     output_path))
    with [Crystallizer.crystallize_prompt
            (session_of analysis (Main.feature args) h) output_path].
  change (queries explore_postlude) with (@nil string).
  change (queries engineer_postlude) with (@nil string).
  cbn [queries omap list_omap app]. rewrite !app_nil_r. reflexivity.
Qed.

End FullRun.


Lemma X26_witness :
  let analysis :=
    {| summary := String.concat "" (map message_text no_text);
       path := Main.str_path ["repo"] |} in
  let self := VibeEngineer.__init__ analysis (Main.feature local_args) true in
  let result :=
    Overkill.run_pipeline declines no_text one_question no_text
      (fun _ => sample_tmp) sample_git_clone (fun s => [s])
      local_args with_repo in
  exists h cs,
    paired h = true
    /\ Main.ui (snd result) = Main.ui with_repo ++ cs
    /\ queries cs
       = RepoExplorer.analysis_prompt
         :: initial_prompt self
         :: user_messages h
            ++ [Crystallizer.crystallize_prompt
                  (session_of analysis (Main.feature local_args) h)
                  (Main.str_path ["SPEC.md"])].
Proof.
  exact (X26_run_hands_results_on declines no_text one_question no_text
           (fun _ => sample_tmp) sample_git_clone (fun s => [s])
           local_args with_repo eq_refl
           (proj2 (elem_of_singleton (C := gset Main.Path) ["repo"] ["repo"])
              eq_refl)).
Defined.
